(** * Agent-as-Coder: the bounded generate / test / fix loop of [agent.py]

    A shallow embedding of [BankStatementParserAgent]: the text utilities
    the agent relies on ([in], [str.split], [str.strip]), the session state
    [AgentState], the four graph nodes, the two routing functions, the graph
    built by [_build_graph], and the entry points [run] and [main].

    The generation service, the reference-file reader and the test process
    are outside the program; they appear as oracles that answer from the
    history of the run and their request, so that every statement below
    holds for any sequence of outcomes.

    Left out or assumed: console output is left out; creating directories
    and writing the parser file succeed; the target is a plain file-name
    component, so the two paths of [run] are joined with slashes; the graph
    engine is taken by the nodes and edges [_build_graph] declares, and a
    ceiling of its own on the number of steps could only cut a run short,
    which the statements on every configuration of a run already allow. *)

From Stdlib Require Import ZArith Lia Ascii String.
From stdpp Require Import base option list strings gmap.

Local Open Scope string_scope.

(** ** Python text primitives

    A text is a [string]; its characters are code points below 256. *)
Module Py.

Definition nl : string := String "010"%char "".

(** [s.startswith(p)] *)
Fixpoint startswith (p s : string) : bool :=
  match p, s with
  | "", _ => true
  | String a p', String b s' => if Ascii.eqb a b then startswith p' s' else false
  | String _ _, "" => false
  end.

(** [s[n:]] *)
Fixpoint drop (n : nat) (s : string) : string :=
  match n, s with
  | S k, String _ s' => drop k s'
  | _, _ => s
  end.

(** [s[:n]] *)
Fixpoint take (n : nat) (s : string) : string :=
  match n, s with
  | S k, String c s' => String c (take k s')
  | _, _ => ""
  end.

(** [s.find(sub)]: the offset of the leftmost occurrence; [None] stands
    for the -1 of a text without one. *)
Fixpoint find (sub s : string) : option nat :=
  if startswith sub s then Some 0
  else match s with
       | "" => None
       | String _ s' => S <$> find sub s'
       end.

(** [sub in s] *)
Definition contains (sub s : string) : bool :=
  match find sub s with Some _ => true | None => false end.

(** [s.partition(sep)[0]]: the text before the leftmost occurrence of
    [sep], or all of [s] without one. *)
Definition before (sep s : string) : string :=
  match find sep s with Some i => take i s | None => s end.

(** [s.split(sep)] for a non-empty separator (an empty one is rejected
    by Python): cut at the leftmost occurrence, then go on in the text
    after it, so the occurrences found do not overlap.  The counter
    bounds the number of cuts by the length of the text, which a
    non-empty separator never reaches. *)
Fixpoint split_from (n : nat) (sep s : string) : list string :=
  match find sep s, n with
  | Some i, S k =>
      take i s :: split_from k sep (drop (i + String.length sep) s)
  | _, _ => [s]
  end.

Definition split (sep s : string) : list string :=
  split_from (String.length s) sep s.

(** [c.isspace()] for a code point below 256: tab, line feed, vertical
    tab, form feed, carriage return, the four separators 28..31, space,
    next line (133) and no-break space (160). *)
Definition isspace (c : ascii) : bool :=
  let n := nat_of_ascii c in
  (((9 <=? n) && (n <=? 13)) || ((28 <=? n) && (n <=? 32))
   || (n =? 133) || (n =? 160))%nat.

(** [s.lstrip()], [s.rstrip()], [s.strip()] *)
Fixpoint lstrip (s : string) : string :=
  match s with
  | "" => ""
  | String c s' => if isspace c then lstrip s' else s
  end.

Fixpoint rstrip (s : string) : string :=
  match s with
  | "" => ""
  | String c s' =>
      match rstrip s' with
      | "" => if isspace c then "" else String c ""
      | r => String c r
      end
  end.

Definition strip (s : string) : string := rstrip (lstrip s).

(** Every character is white space (true of the empty text too). *)
Fixpoint all_space (s : string) : bool :=
  match s with
  | "" => true
  | String c s' => isspace c && all_space s'
  end.

(** [os.path.dirname(p)] on a POSIX path: the head up to the last
    slash, without its trailing slashes unless it is made of slashes. *)
Fixpoint upto_last_slash (p : string) : string :=
  match p with
  | "" => ""
  | String c p' => if contains "/" p then String c (upto_last_slash p') else ""
  end.

Fixpoint rstrip_slash (s : string) : string :=
  match s with
  | "" => ""
  | String c s' =>
      match rstrip_slash s' with
      | "" => if Ascii.eqb c "/" then "" else String c ""
      | r => String c r
      end
  end.

Definition dirname (p : string) : string :=
  let head := upto_last_slash p in
  match rstrip_slash head with
  | "" => head
  | stripped => stripped
  end.

(** Truth value of a text, and of an optional text ([None] is false). *)
Definition truthy (s : string) : bool :=
  match s with "" => false | _ => true end.

Definition truthy_opt (o : option string) : bool :=
  match o with Some s => truthy s | None => false end.

(** How an f-string renders an optional text. *)
Definition fmt_opt (o : option string) : string :=
  match o with Some s => s | None => "None" end.

End Py.

(** ** Exceptions, results and the outside world *)

Inductive exn_class :=
| IndexError | TimeoutExpired | OSError | SystemExit | OtherError.

(** An exception with the text [str(e)] renders. *)
Record exn := Exn { exn_kind : exn_class; str_exn : string }.

Inductive result (A : Type) : Type :=
| Ok (a : A)
| Raise (e : exn).
Arguments Ok {A} a.
Arguments Raise {A} e.

(** [l[i]] *)
Definition index {A : Type} (l : list A) (i : nat) : result A :=
  match l !! i with
  | Some x => Ok x
  | None => Raise (Exn IndexError "list index out of range")
  end.

(** What [subprocess.run(..., capture_output=True, text=True)] returns. *)
Record CompletedProcess := {
  returncode : Z;
  stdout : string;
  stderr : string
}.

Inductive Node := plan | generate_code | run_tests | self_fix | END.

Global Instance Node_eq_dec : EqDecision Node.
Proof. solve_decision. Defined.

(** What the program does to the outside, most recent first. *)
Inductive event :=
| EvNode (n : Node)                              (* the graph ran node [n] *)
| EvReadCsv (path : string)                      (* pd.read_csv(path) *)
| EvPrompt (prompt : string)                     (* model.generate_content(prompt) *)
| EvMakedirs (path : string)                     (* os.makedirs(path, exist_ok=True) *)
| EvWrite (path content : string)                (* open(path, 'w').write(content) *)
| EvSubprocess (cmd : list string) (timeout : Z) (* subprocess.run(cmd, timeout=...) *).

(** The file store (path to content) and the history of the run.  Creating
    directories and writing a file are taken to succeed. *)
Record World := {
  files : gmap string string;
  trace : list event
}.

(** The collaborators.  Each answers from the history so far and its
    request, so any sequence of outcomes is some environment. *)
Record Env := {
  cwd : string;
  sys_executable : string;
  (* pd.read_csv(path).columns.tolist(), or the exception it raises *)
  read_csv_columns : list event -> gmap string string -> string -> result (list string);
  (* model.generate_content(prompt).text for the configured credential,
     or the exception raised on the way *)
  generate_content : list event -> string -> string -> result string;
  (* subprocess.run(cmd, cwd=..., timeout=...): a completed process, or
     TimeoutExpired, or the error of a process that cannot be spawned *)
  subprocess_run :
    list event -> gmap string string -> list string -> string -> Z ->
    result CompletedProcess
}.

(** ** State and error monad of the node functions *)

Definition M (A : Type) : Type := World -> World * result A.

Definition ret {A : Type} (a : A) : M A := fun w => (w, Ok a).

Definition raise {A : Type} (e : exn) : M A := fun w => (w, Raise e).

Definition bind {A B : Type} (m : M A) (k : A -> M B) : M B :=
  fun w =>
    match m w with
    | (w', Ok a) => k a w'
    | (w', Raise e) => (w', Raise e)
    end.

(** [try: m except Exception as e: h e]; what [m] did to the world before
    it raised stays done. *)
Definition try_except {A : Type} (m : M A) (h : exn -> M A) : M A :=
  fun w =>
    match m w with
    | (w', Ok a) => (w', Ok a)
    | (w', Raise e) => h e w'
    end.

Definition lift {A : Type} (r : result A) : M A := fun w => (w, r).

Definition emit (ev : event) : M unit :=
  fun w => ({| files := files w; trace := ev :: trace w |}, Ok tt).

Global Instance M_ret : MRet M := @ret.
Global Instance M_bind : MBind M := fun A B k m => bind m k.

(** ** Session state ([AgentState]) *)

Record AgentState := {
  messages : list (string * string);   (* role, content *)
  target_bank : string;
  parser_path : string;
  csv_path : string;
  current_code : option string;
  test_results : option string;
  attempt_count : Z;
  max_attempts : Z;
  task_complete : bool
}.

Definition set_messages (v : list (string * string)) (s : AgentState) :=
  {| messages := v; target_bank := target_bank s;
     parser_path := parser_path s; csv_path := csv_path s;
     current_code := current_code s; test_results := test_results s;
     attempt_count := attempt_count s; max_attempts := max_attempts s;
     task_complete := task_complete s |}.

Definition set_current_code (v : option string) (s : AgentState) :=
  {| messages := messages s; target_bank := target_bank s;
     parser_path := parser_path s; csv_path := csv_path s;
     current_code := v; test_results := test_results s;
     attempt_count := attempt_count s; max_attempts := max_attempts s;
     task_complete := task_complete s |}.

Definition set_test_results (v : option string) (s : AgentState) :=
  {| messages := messages s; target_bank := target_bank s;
     parser_path := parser_path s; csv_path := csv_path s;
     current_code := current_code s; test_results := v;
     attempt_count := attempt_count s; max_attempts := max_attempts s;
     task_complete := task_complete s |}.

Definition set_attempt_count (v : Z) (s : AgentState) :=
  {| messages := messages s; target_bank := target_bank s;
     parser_path := parser_path s; csv_path := csv_path s;
     current_code := current_code s; test_results := test_results s;
     attempt_count := v; max_attempts := max_attempts s;
     task_complete := task_complete s |}.

Definition set_task_complete (v : bool) (s : AgentState) :=
  {| messages := messages s; target_bank := target_bank s;
     parser_path := parser_path s; csv_path := csv_path s;
     current_code := current_code s; test_results := test_results s;
     attempt_count := attempt_count s; max_attempts := max_attempts s;
     task_complete := v |}.

(** ** The agent ([BankStatementParserAgent]) *)

Definition fence_python : string := "```python".
Definition fence : string := "```".

(** [_extract_code]: [Ok None] is Python's [None]. *)
Definition _extract_code (text : string) : result (option string) :=
  if Py.contains fence_python text then
    match index (Py.split fence_python text) 1 with
    | Ok seg =>
        match index (Py.split fence seg) 0 with
        | Ok inner => Ok (Some (Py.strip inner))
        | Raise e => Raise e
        end
    | Raise e => Raise e
    end
  else Ok (if Py.truthy text then Some (Py.strip text) else None).

(** The prompt of [_generate_code_node].  The key [test_results] is always
    present in the state, so [state.get] never falls back on its default
    and an absent feedback renders as [None]. *)
Definition prompt_text (state : AgentState) : string :=
  let ind := "        " in
  Py.nl +:+
  ind +:+ "You are an expert Python developer. Generate a parser for '"
      +:+ target_bank state +:+ "' bank statements." +:+ Py.nl +:+
  Py.nl +:+
  ind +:+ "**CRITICAL INSTRUCTIONS:**" +:+ Py.nl +:+
  ind +:+ "1.  The PDF data has exactly 5 columns. Your parser must extract and handle exactly 5 columns." +:+ Py.nl +:+
  ind +:+ "2.  The required output DataFrame columns are STRICTLY: `['Date', 'Description', 'Debit Amt', 'Credit Amt', 'Balance']`." +:+ Py.nl +:+
  ind +:+ "3.  **DO NOT HALLUCINATE OR ADD EXTRA COLUMNS.** Specifically, do not add a 'Chq./Ref.No.' column. This is the most common cause of failure." +:+ Py.nl +:+
  ind +:+ "4.  Use `pdfplumber` and `page.extract_tables()`." +:+ Py.nl +:+
  ind +:+ "5.  Create the DataFrame from a list of dictionaries to ensure column mapping is correct." +:+ Py.nl +:+
  Py.nl +:+
  ind +:+ "**Feedback from previous attempt:** "
      +:+ Py.fmt_opt (test_results state) +:+ Py.nl +:+
  Py.nl +:+
  ind +:+ "Provide only the complete, runnable Python code." +:+ Py.nl +:+
  ind.

Definition msg_no_code : string := "Failed to generate valid Python code.".
Definition msg_generation_exception (e : exn) : string :=
  "An exception occurred during code generation: " +:+ str_exn e.
Definition msg_tests_passed : string := "All tests passed successfully.".
Definition msg_tests_failed (out err : string) : string :=
  "Tests failed." +:+ Py.nl +:+ "STDOUT:" +:+ Py.nl +:+ out +:+ Py.nl +:+
  "STDERR:" +:+ Py.nl +:+ err.
Definition msg_tests_exception (e : exn) : string :=
  "An unexpected error occurred while running tests: " +:+ str_exn e.

Section Agent.

Variable env : Env.
(** The credential the agent was constructed with. *)
Variable api_key : string.

(** Calls to the collaborators, each leaving its event in the history. *)
Definition pd_read_csv (path : string) : M (list string) :=
  fun w =>
    ({| files := files w; trace := EvReadCsv path :: trace w |},
     read_csv_columns env (trace w) (files w) path).

Definition model_generate_content (prompt : string) : M string :=
  fun w =>
    ({| files := files w; trace := EvPrompt prompt :: trace w |},
     generate_content env (trace w) api_key prompt).

Definition subprocess_run_call (cmd : list string) (timeout : Z)
  : M CompletedProcess :=
  fun w =>
    ({| files := files w; trace := EvSubprocess cmd timeout :: trace w |},
     subprocess_run env (trace w) (files w) cmd (cwd env) timeout).

Definition write_file (path content : string) : M unit :=
  fun w =>
    ({| files := <[path := content]> (files w);
        trace := EvWrite path content :: trace w |}, Ok tt).

(** *** Graph nodes

    [_plan_node] appends its message to the list it is given; how the
    engine merges that channel afterwards is not modelled, and nothing
    below reads [messages]. *)

Definition _plan_node (state : AgentState) : M AgentState :=
  mret (set_messages
          (messages state ++
           [("user", "Plan a Python parser for " +:+ target_bank state +:+ ".")])
          state).

Definition _generate_code_node (state : AgentState) : M AgentState :=
  csv_schema ← pd_read_csv (csv_path state);
  let prompt := prompt_text state in
  try_except
    (text ← model_generate_content prompt;
     code ← lift (_extract_code text);
     if Py.truthy_opt code then
       emit (EvMakedirs (Py.dirname (parser_path state)));;
       write_file (parser_path state) (default "" code);;
       mret (set_current_code code state)
     else
       mret (set_test_results (Some msg_no_code)
               (set_current_code None state)))
    (fun e =>
       mret (set_test_results (Some (msg_generation_exception e))
               (set_current_code None state))).

Definition _run_tests_node (state : AgentState) : M AgentState :=
  try_except
    (result ← subprocess_run_call
                [sys_executable env; "-m"; "pytest"; "test_parser.py"] 60;
     if (returncode result =? 0)%Z then
       mret (set_task_complete true
               (set_test_results (Some msg_tests_passed) state))
     else
       mret (set_task_complete false
               (set_test_results
                  (Some (msg_tests_failed (stdout result) (stderr result)))
                  state)))
    (fun e =>
       mret (set_task_complete false
               (set_test_results (Some (msg_tests_exception e)) state))).

Definition _self_fix_node (state : AgentState) : M AgentState :=
  mret (set_attempt_count (attempt_count state + 1)%Z state).

(** *** Conditional logic *)

Definition _should_test (state : AgentState) : string :=
  if Py.truthy_opt (current_code state) then "test" else "end".

Definition _should_continue_fixing (state : AgentState) : string :=
  if task_complete state then "end"
  else if (attempt_count state <? max_attempts state)%Z then "fix" else "end".

(** *** The graph of [_build_graph] *)

Definition node_action (n : Node) : AgentState -> M AgentState :=
  match n with
  | plan => _plan_node
  | generate_code => _generate_code_node
  | run_tests => _run_tests_node
  | self_fix => _self_fix_node
  | END => mret
  end.

(** The target a conditional edge maps a label to; a label outside the
    mapping has none. *)
Fixpoint path_map (mapping : list (string * Node)) (label : string)
  : option Node :=
  match mapping with
  | [] => None
  | (l, n) :: rest => if String.eqb l label then Some n else path_map rest label
  end.

Definition edge (n : Node) (state : AgentState) : option Node :=
  match n with
  | plan => Some generate_code
  | generate_code =>
      path_map [("test", run_tests); ("end", END)] (_should_test state)
  | run_tests =>
      path_map [("fix", self_fix); ("end", END)] (_should_continue_fixing state)
  | self_fix => Some generate_code
  | END => None
  end.

(** One step of the compiled graph: run the node, then follow its edge. *)
Definition graph_step (n : Node) (state : AgentState)
  : M (Node * AgentState) :=
  emit (EvNode n);;
  state' ← node_action n state;
  match edge n state' with
  | Some n' => mret (n', state')
  | None => raise (Exn OtherError "no edge for this branch")
  end.

(** [workflow.invoke], started at node [n]: steps until [END].  [budget]
    is the number of graph steps this interpreter may take; [None] means
    it ran out before [END] was reached. *)
Fixpoint invoke_from (budget : nat) (n : Node) (state : AgentState)
  : M (option AgentState) :=
  match n with
  | END => mret (Some state)
  | _ =>
      match budget with
      | O => mret None
      | S k =>
          c ← graph_step n state;
          invoke_from k c.1 c.2
      end
  end.

Definition invoke (budget : nat) (state : AgentState) : M (option AgentState) :=
  invoke_from budget plan state.

(** *** Public API *)

Definition initial_state (target : string) (limit : Z) : AgentState :=
  {| messages := [];
     target_bank := target;
     parser_path := cwd env +:+ "/custom_parsers/" +:+ target +:+ "_parser.py";
     csv_path := cwd env +:+ "/data/" +:+ target +:+ "/" +:+ target +:+ "_sample.csv";
     attempt_count := 1;
     max_attempts := limit;
     task_complete := false;
     current_code := None;
     test_results := None |}.

(** [run(target_bank, max_attempts=3)]: the limit is optional. *)
Definition run (budget : nat) (target : string) (limit : option Z)
  : M (option AgentState) :=
  invoke budget (initial_state target (default 3%Z limit)).

End Agent.

(** ** Command line ([main])

    [argparse] is a collaborator of [main]: from the arguments the parser
    was told about and the command line it gives the namespace of the
    declared attributes, or makes the process exit.  [main] declares two
    arguments and reads the two attributes they fill. *)





(** ** Runs of the graph as a transition system *)

Definition config : Type := Node * AgentState * World.

Definition cfg_node (c : config) : Node := c.1.1.
Definition cfg_state (c : config) : AgentState := c.1.2.
Definition cfg_world (c : config) : World := c.2.

(** [c] is not at [END] and one graph step takes it to [c'] without an
    exception. *)
Definition step_to (env : Env) (api_key : string) (c c' : config) : Prop :=
  cfg_node c <> END /\
  graph_step env api_key (cfg_node c) (cfg_state c) (cfg_world c)
  = (cfg_world c', Ok (cfg_node c', cfg_state c')).

(** Where [run] starts the graph. *)
Definition start (env : Env) (target : string) (limit : Z) (w : World)
  : config :=
  (plan, initial_state env target limit, w).

(** Every configuration a run goes through, whatever cuts it short. *)
Definition reachable (env : Env) (api_key target : string) (limit : Z)
    (w : World) (c : config) : Prop :=
  rtc (step_to env api_key) (start env target limit w) c.

(** Generation cycles in a history: the times the graph ran
    [generate_code]. *)
Definition is_generation (ev : event) : bool :=
  match ev with EvNode generate_code => true | _ => false end.

Definition is_verification (ev : event) : bool :=
  match ev with
  | EvNode run_tests => true
  | EvSubprocess _ _ => true
  | _ => false
  end.

Definition is_write (ev : event) : bool :=
  match ev with EvWrite _ _ => true | EvMakedirs _ => true | _ => false end.

Fixpoint count (p : event -> bool) (tr : list event) : nat :=
  match tr with
  | [] => 0
  | ev :: rest => (if p ev then 1 else 0) + count p rest
  end.

Definition generation_cycles (w : World) : nat := count is_generation (trace w).
Definition verifications (w : World) : nat := count is_verification (trace w).

(** The prompts sent to the generation service, most recent first. *)
Fixpoint prompts_sent (tr : list event) : list string :=
  match tr with
  | [] => []
  | EvPrompt p :: rest => p :: prompts_sent rest
  | _ :: rest => prompts_sent rest
  end.

(** Whether a verification outcome is a success: the process completed
    with exit code 0. *)
Definition verified (r : result CompletedProcess) : bool :=
  match r with
  | Ok cp => (returncode cp =? 0)%Z
  | Raise _ => false
  end.

(** Whether a generation outcome yields no code: the service raised, or
    the extraction raised, or what it extracted is [None] or empty. *)
Definition yields_no_code (r : result string) : bool :=
  match r with
  | Raise _ => true
  | Ok text =>
      match _extract_code text with
      | Ok code => negb (Py.truthy_opt code)
      | Raise _ => true
      end
  end.

(** The feedback a generation outcome without code leaves. *)
Definition no_code_feedback (r : result string) : string :=
  match r with
  | Raise e => msg_generation_exception e
  | Ok text =>
      match _extract_code text with
      | Ok _ => msg_no_code
      | Raise e => msg_generation_exception e
      end
  end.

(** ** Outcomes of one node, named for the statements below *)

(** [w] with the events [evs] (most recent first) added to its history. *)
Definition after (evs : list event) (w : World) : World :=
  {| files := files w; trace := evs ++ trace w |}.

Definition pytest_cmd (env : Env) : list string :=
  [sys_executable env; "-m"; "pytest"; "test_parser.py"].

(** The service's answer to the prompt [_generate_code_node] sends from
    [w], once the reference file has been read. *)
Definition reply (env : Env) (api_key : string) (st : AgentState) (w : World)
  : result string :=
  generate_content env (EvReadCsv (csv_path st) :: trace w) api_key
    (prompt_text st).

(** The outcome of the test process [_run_tests_node] spawns from [w]. *)
Definition test_outcome (env : Env) (w : World) : result CompletedProcess :=
  subprocess_run env (trace w) (files w) (pytest_cmd env) (cwd env) 60.

(** The state [_run_tests_node] leaves for each outcome. *)
Definition tested (st : AgentState) (r : result CompletedProcess)
  : AgentState :=
  match r with
  | Ok cp =>
      if (returncode cp =? 0)%Z then
        set_task_complete true (set_test_results (Some msg_tests_passed) st)
      else
        set_task_complete false
          (set_test_results
             (Some (msg_tests_failed (stdout cp) (stderr cp))) st)
  | Raise e =>
      set_task_complete false
        (set_test_results (Some (msg_tests_exception e)) st)
  end.

(** ** Measures of what is left of a run *)

(** Retries the limit still allows. *)
Definition remaining (st : AgentState) : nat :=
  Z.to_nat (max_attempts st - attempt_count st).

(** Graph steps, and generation cycles, a run can still take from node
    [n] in state [st]. *)
Definition steps_ahead (n : Node) (st : AgentState) : nat :=
  match n with
  | plan => 3 * remaining st + 3
  | generate_code => 3 * remaining st + 2
  | run_tests => 3 * remaining st + 1
  | self_fix => 3 * Z.to_nat (max_attempts st - attempt_count st - 1) + 3
  | END => 0
  end.

Definition cycles_ahead (n : Node) (st : AgentState) : nat :=
  match n with
  | plan | generate_code => remaining st + 1
  | run_tests => remaining st
  | self_fix => Z.to_nat (max_attempts st - attempt_count st - 1) + 1
  | END => 0
  end.

(** ** Sample collaborators and inputs *)

(** Collaborators that give the same answer whatever the history. *)
Definition env_const (cols : result (list string)) (gen : result string)
    (proc : result CompletedProcess) : Env :=
  {| cwd := "/work";
     sys_executable := "/usr/bin/python3";
     read_csv_columns := fun _ _ _ => cols;
     generate_content := fun _ _ _ => gen;
     subprocess_run := fun _ _ _ _ _ => proc |}.

Definition w_empty : World := {| files := ∅; trace := [] |}.

Definition cols_expected : list string :=
  ["Date"; "Description"; "Debit Amt"; "Credit Amt"; "Balance"].

Definition proc_pass : CompletedProcess :=
  {| returncode := 0; stdout := "2 passed"; stderr := "" |}.

Definition proc_fail : CompletedProcess :=
  {| returncode := 1; stdout := "out"; stderr := "err" |}.

Definition env_pass : Env :=
  env_const (Ok cols_expected) (Ok "print(1)") (Ok proc_pass).

Definition env_fail : Env :=
  env_const (Ok cols_expected) (Ok "print(1)") (Ok proc_fail).

(** The same collaborators with another reference file. *)
Definition env_fail_other_columns : Env :=
  env_const (Ok ["Posted"; "Payee"; "Amount"]) (Ok "print(1)") (Ok proc_fail).

(** A service that answers with white space only, and one that answers
    with the empty text. *)
Definition env_blank : Env :=
  env_const (Ok cols_expected) (Ok "   ") (Ok proc_pass).

Definition env_empty : Env :=
  env_const (Ok cols_expected) (Ok "") (Ok proc_pass).

(** Tests that fail twice and pass the third time they are run. *)
Definition is_subprocess (ev : event) : bool :=
  match ev with EvSubprocess _ _ => true | _ => false end.

Definition env_third_time : Env :=
  {| cwd := "/work";
     sys_executable := "/usr/bin/python3";
     read_csv_columns := fun _ _ _ => Ok cols_expected;
     generate_content := fun _ _ _ => Ok "print(1)";
     subprocess_run := fun tr _ _ _ _ =>
       if (count is_subprocess tr <? 2)%nat then Ok proc_fail else Ok proc_pass |}.

(** The configuration one graph step leads to (the same one when the step
    raises). *)
Definition advance (env : Env) (api_key : string) (c : config) : config :=
  match graph_step env api_key (cfg_node c) (cfg_state c) (cfg_world c) with
  | (w', Ok (n', st')) => (n', st', w')
  | (_, Raise _) => c
  end.

(** A run whose tests fail, limit 3: planned, generated, tested, fixed. *)
Definition fail_0 : config := start env_fail "icici" 3 w_empty.
Definition fail_1 : config := advance env_fail "key" fail_0.
Definition fail_2 : config := advance env_fail "key" fail_1.
Definition fail_3 : config := advance env_fail "key" fail_2.
Definition fail_4 : config := advance env_fail "key" fail_3.

(** A run whose tests pass at once. *)
Definition pass_0 : config := start env_pass "icici" 3 w_empty.
Definition pass_1 : config := advance env_pass "key" pass_0.
Definition pass_2 : config := advance env_pass "key" pass_1.
Definition pass_3 : config := advance env_pass "key" pass_2.

Definition sample_inner : string := Py.nl +:+ "x = 1" +:+ Py.nl.

(** A reply with one tagged block. *)
Definition sample_reply : string :=
  "Here:" +:+ Py.nl +:+ fence_python +:+ sample_inner +:+ fence +:+ Py.nl +:+ "Done.".

(** A reply whose block is closed by a run of four backticks that goes on
    with the tag. *)
Definition run_inner : string := Py.nl +:+ "x" +:+ Py.nl.
Definition run_post : string := "`python" +:+ Py.nl +:+ "y```".
Definition run_reply : string := fence_python +:+ run_inner +:+ fence +:+ run_post.

(** ** The test suite's side ([test_parser.py])

    The fixtures of the test suite build their paths from a bank name of
    their own and the working directory, which the test process shares
    with the agent. *)

Definition bank_name : string := "icici".

Definition test_parser_path (cwd : string) : string :=
  cwd +:+ "/" +:+ "custom_parsers/" +:+ bank_name +:+ "_parser.py".

Definition test_csv_path (cwd : string) : string :=
  cwd +:+ "/" +:+ "data/" +:+ bank_name +:+ "/" +:+ bank_name +:+ "_sample.csv".

(** ** Vocabulary for the statements on whole runs *)

Definition is_file_write (ev : event) : bool :=
  match ev with EvWrite _ _ => true | _ => false end.

(** How many events of a kind a run has added to the history it started
    from. *)
Definition since (p : event -> bool) (w0 w : World) : Z :=
  Z.of_nat (count p (trace w)) - Z.of_nat (count p (trace w0)).

(** The feedback texts a failed test run, and a generation without code,
    leave. *)
Definition test_failure_text (o : option string) : Prop :=
  (exists out err, o = Some (msg_tests_failed out err)) \/
  (exists e, o = Some (msg_tests_exception e)).

Definition generation_failure_text (o : option string) : Prop :=
  o = Some msg_no_code \/ (exists e, o = Some (msg_generation_exception e)).

(** What holds of every configuration [c] of a run started by
    [run target limit] in the world [w0]: the fields that never change,
    the files the run has not touched, the artifact on disk, and, node by
    node, the feedback and the number of cycles, writes and test runs so
    far. *)
Definition run_invariant (env : Env) (target : string) (limit : Z)
    (w0 : World) (c : config) : Prop :=
  let st := cfg_state c in
  let w := cfg_world c in
  let init := initial_state env target limit in
  (target_bank st = target /\ parser_path st = parser_path init /\
   csv_path st = csv_path init /\ max_attempts st = limit) /\
  (forall p, p <> parser_path init -> files w !! p = files w0 !! p) /\
  (Py.truthy_opt (current_code st) = true ->
   files w !! parser_path init = current_code st) /\
  (task_complete st = true ->
   cfg_node c = END /\ test_results st = Some msg_tests_passed /\
   Py.truthy_opt (current_code st) = true) /\
  match cfg_node c with
  | plan =>
      attempt_count st = 1%Z /\ test_results st = None /\
      current_code st = None /\
      since is_generation w0 w = 0%Z /\ since is_file_write w0 w = 0%Z /\
      since is_subprocess w0 w = 0%Z
  | generate_code =>
      (attempt_count st = 1%Z /\ test_results st = None \/
       (1 < attempt_count st)%Z /\ test_failure_text (test_results st)) /\
      since is_generation w0 w = (attempt_count st - 1)%Z /\
      since is_file_write w0 w = (attempt_count st - 1)%Z /\
      since is_subprocess w0 w = (attempt_count st - 1)%Z
  | run_tests =>
      (1 <= attempt_count st)%Z /\
      Py.truthy_opt (current_code st) = true /\
      since is_generation w0 w = attempt_count st /\
      since is_file_write w0 w = attempt_count st /\
      since is_subprocess w0 w = (attempt_count st - 1)%Z
  | self_fix =>
      (1 <= attempt_count st < limit)%Z /\
      test_failure_text (test_results st) /\
      Py.truthy_opt (current_code st) = true /\
      since is_generation w0 w = attempt_count st /\
      since is_file_write w0 w = attempt_count st /\
      since is_subprocess w0 w = attempt_count st
  | END =>
      (1 <= attempt_count st)%Z /\
      since is_generation w0 w = attempt_count st /\
      (current_code st = None /\
       task_complete st = false /\
       generation_failure_text (test_results st) /\
       since is_file_write w0 w = (attempt_count st - 1)%Z /\
       since is_subprocess w0 w = (attempt_count st - 1)%Z
       \/
       Py.truthy_opt (current_code st) = true /\
       since is_file_write w0 w = attempt_count st /\
       since is_subprocess w0 w = attempt_count st /\
       (task_complete st = true \/
        task_complete st = false /\ (limit <= attempt_count st)%Z /\
        test_failure_text (test_results st)))
  end.

(** The only things a run started by [run target limit] does to the
    outside: it reads its reference file, sends prompts built for its
    target, creates the directory of its parser file and writes non-empty
    code there, and spawns the fixed test command with a timeout of 60. *)
Definition run_event_ok (env : Env) (target : string) (limit : Z)
    (ev : event) : Prop :=
  let init := initial_state env target limit in
  match ev with
  | EvNode n => n <> END
  | EvReadCsv path => path = csv_path init
  | EvPrompt prompt =>
      exists fb, prompt = prompt_text (set_test_results fb init)
  | EvMakedirs path => path = Py.dirname (parser_path init)
  | EvWrite path code => path = parser_path init /\ code <> ""
  | EvSubprocess cmd timeout =>
      cmd = [sys_executable env; "-m"; "pytest"; "test_parser.py"] /\
      timeout = 60%Z
  end.

(** The feedback of a failed test run, read off the outcome of the
    process spawned after the history [tr'] with the files [fs]: the two
    outputs under their headings for a non-zero exit code, the text of the
    exception for a process that timed out or could not be spawned. *)
Definition feedback_of_failed_run (env : Env) (tr' : list event)
    (fs : gmap string string) (o : option string) : Prop :=
  match subprocess_run env (EvNode run_tests :: tr') fs (pytest_cmd env)
          (cwd env) 60 with
  | Ok cp =>
      returncode cp <> 0%Z /\
      o = Some (msg_tests_failed (stdout cp) (stderr cp))
  | Raise e => o = Some (msg_tests_exception e)
  end.

(** A target that is one plain path component: for such a target the
    path joins of [run] and of the test suite are concatenations with
    slashes. *)
Definition plain_component (s : string) : bool :=
  negb (Py.contains "/" s) && negb (String.eqb s "") && negb (String.eqb s ".").


(** A run that gets no code: planned, then generated nothing. *)
Definition nocode_0 : config := start env_empty "icici" 3 w_empty.
Definition nocode_1 : config := advance env_empty "key" nocode_0.
Definition nocode_2 : config := advance env_empty "key" nocode_1.

(** A reference file that cannot be read. *)
Definition env_unreadable : Env :=
  env_const (Raise (Exn OSError "No such file or directory"))
    (Ok "print(1)") (Ok proc_pass).

Example split_two_fences :
  Py.split "```python" "a```python b ```python c" = ["a"; " b "; " c"].
Proof. reflexivity. Qed.

Example dirname_parser_path :
  Py.dirname "/work/custom_parsers/icici_parser.py" = "/work/custom_parsers".
Proof. reflexivity. Qed.

Example strip_both_ends :
  Py.strip (" " +:+ Py.nl +:+ "x y" +:+ Py.nl) = "x y".
Proof. reflexivity. Qed.

(** * Facts about the text primitives *)

Module PyFacts.
Import Py.

(** stdpp keeps [+:+] from unfolding under [simpl]; these two equations
    are its computation rules. *)
Lemma app_nil_l (t : string) : "" +:+ t = t.
Proof. reflexivity. Qed.

Lemma app_cons (c : ascii) (s t : string) :
  String c s +:+ t = String c (s +:+ t).
Proof. reflexivity. Qed.

Ltac app_simpl := rewrite ?app_cons, ?app_nil_l in *; simpl in *.

Lemma length_app (s t : string) :
  String.length (s +:+ t) = String.length s + String.length t.
Proof. induction s as [|c s IH]; app_simpl; [done | by f_equal]. Qed.

Lemma app_assoc (s t u : string) : (s +:+ t) +:+ u = s +:+ t +:+ u.
Proof.
  induction s as [|c s IH]; [done|].
  rewrite !app_cons. by f_equal.
Qed.

Lemma take_drop (n : nat) (s : string) : take n s +:+ drop n s = s.
Proof.
  revert s; induction n as [|n IH]; intros [|c s]; simpl; try done.
  rewrite app_cons. by f_equal.
Qed.

Lemma take_app_length (s t : string) : take (String.length s) (s +:+ t) = s.
Proof.
  induction s as [|c s IH]; app_simpl; [by destruct t | by f_equal].
Qed.

Lemma drop_app_length (s t : string) (n : nat) :
  drop (String.length s + n) (s +:+ t) = drop n t.
Proof. induction s as [|c s IH]; app_simpl; done. Qed.

Lemma drop_app_exact (s t : string) : drop (String.length s) (s +:+ t) = t.
Proof. induction s as [|c s IH]; app_simpl; [by destruct t | done]. Qed.

Lemma length_take (n : nat) (s : string) :
  n <= String.length s -> String.length (take n s) = n.
Proof.
  revert s; induction n as [|n IH]; intros [|c s]; simpl; try lia.
  intros H. rewrite IH; lia.
Qed.

Lemma take_take (n m : nat) (s : string) :
  n <= m -> take n (take m s) = take n s.
Proof.
  revert m s; induction n as [|n IH]; intros [|m] [|c s] H; simpl;
    try done; try lia.
  rewrite IH; [done | lia].
Qed.

Lemma take_all (n : nat) (s : string) :
  String.length s <= n -> take n s = s.
Proof.
  revert s; induction n as [|n IH]; intros [|c s]; simpl; try done; try lia.
  intros H. rewrite IH; [done | lia].
Qed.

Lemma startswith_app (p t : string) : startswith p (p +:+ t) = true.
Proof.
  induction p as [|c p IH]; app_simpl; [done |].
  by rewrite Ascii.eqb_refl.
Qed.

Lemma startswith_length (p s : string) :
  startswith p s = true -> String.length p <= String.length s.
Proof.
  revert s; induction p as [|a p IH]; intros [|b s]; simpl; try done; try lia.
  destruct (Ascii.eqb a b); [|done]. intros H. apply IH in H. lia.
Qed.

(** A prefix of [s] stays one when [s] is extended, and is one of [s]
    already when it fits. *)
Lemma startswith_extend (p s t : string) :
  startswith p s = true -> startswith p (s +:+ t) = true.
Proof.
  revert s; induction p as [|a p IH]; intros [|b s]; try done.
  rewrite app_cons. simpl.
  destruct (Ascii.eqb a b); [apply IH | done].
Qed.

Lemma startswith_restrict (p s t : string) :
  startswith p (s +:+ t) = true ->
  String.length p <= String.length s ->
  startswith p s = true.
Proof.
  revert s; induction p as [|a p IH]; intros [|b s]; try done;
    rewrite ?app_cons; simpl; try lia.
  destruct (Ascii.eqb a b); [|done]. intros H Hl. apply IH; [done | lia].
Qed.

Lemma startswith_app_l (p q s : string) :
  startswith (p +:+ q) s = true -> startswith p s = true.
Proof.
  revert s; induction p as [|a p IH]; intros [|b s];
    rewrite ?app_cons; simpl; try done.
  destruct (Ascii.eqb a b); [apply IH | done].
Qed.

Lemma startswith_cons (a b : ascii) (p s : string) :
  startswith (String a p) (String b s)
  = if Ascii.eqb a b then startswith p s else false.
Proof. reflexivity. Qed.

(** *** [find] returns the leftmost occurrence *)

Lemma find_cons (sub : string) (c : ascii) (s : string) :
  find sub (String c s)
  = if startswith sub (String c s) then Some 0 else S <$> find sub s.
Proof. reflexivity. Qed.

Lemma find_bound (sep s : string) (i : nat) :
  find sep s = Some i -> i + String.length sep <= String.length s.
Proof.
  revert i; induction s as [|c s IH]; intros i; simpl.
  - destruct (startswith sep "") eqn:E; [|done].
    intros [= <-]. apply startswith_length in E. simpl in *. lia.
  - destruct (startswith sep (String c s)) eqn:E.
    + intros [= <-]. apply startswith_length in E. simpl in *. lia.
    + destruct (find sep s) as [j|]; [|done].
      simpl. intros [= <-]. specialize (IH j eq_refl). lia.
Qed.

Lemma find_occurs (sep s : string) (i : nat) :
  find sep s = Some i -> startswith sep (drop i s) = true.
Proof.
  revert i; induction s as [|c s IH]; intros i; simpl.
  - destruct (startswith sep "") eqn:E; [|done]. by intros [= <-].
  - destruct (startswith sep (String c s)) eqn:E.
    + by intros [= <-].
    + destruct (find sep s) as [j|]; [|done].
      simpl. intros [= <-]. by apply IH.
Qed.

Lemma find_leftmost (sep s : string) (i k : nat) :
  find sep s = Some i -> startswith sep (drop k s) = true -> i <= k.
Proof.
  revert i k; induction s as [|c s IH]; intros i k; simpl.
  - destruct (startswith sep "") eqn:E; [|done]. intros [= <-]. lia.
  - destruct (startswith sep (String c s)) eqn:E.
    + intros [= <-]. lia.
    + destruct (find sep s) as [j|]; [|done].
      simpl. intros [= <-]. destruct k as [|k]; simpl.
      * intros H. congruence.
      * intros H. specialize (IH j k eq_refl H). lia.
Qed.

Lemma find_none_no_occurrence (sep s : string) (k : nat) :
  find sep s = None -> startswith sep (drop k s) = false.
Proof.
  revert k; induction s as [|c s IH]; intros k; simpl.
  - destruct (startswith sep "") eqn:E; [done|].
    intros _. by destruct k.
  - destruct (startswith sep (String c s)) eqn:E; [done|].
    destruct (find sep s) as [j|] eqn:F; [done|].
    intros _. destruct k as [|k]; simpl; [done | by apply IH].
Qed.

(** The search in a prefix [s] of [s +:+ t] finds the same occurrence
    when it fits in [s], and none otherwise. *)
Lemma find_in_prefix (sep s t : string) (i : nat) :
  find sep (s +:+ t) = Some i ->
  find sep s =
    if (i + String.length sep <=? String.length s)%nat then Some i else None.
Proof.
  revert i; induction s as [|c s IH]; intros i.
  - rewrite app_nil_l. intros H. apply find_occurs in H as Ho.
    destruct sep as [|a sep]; [|simpl; by rewrite Nat.add_succ_r].
    destruct t; simpl in H; by injection H as <-.
  - rewrite app_cons. simpl find.
    destruct (startswith sep (String c (s +:+ t))) eqn:E.
    + intros [= <-]. rewrite Nat.add_0_l.
      destruct (String.length sep <=? String.length (String c s))%nat eqn:L.
      * apply Nat.leb_le in L. rewrite <- app_cons in E.
        by rewrite (startswith_restrict _ _ _ E L).
      * apply Nat.leb_gt in L.
        destruct (startswith sep (String c s)) eqn:E'.
        { apply startswith_length in E'. lia. }
        destruct (find sep s) as [j|] eqn:F; [|done].
        apply find_bound in F. simpl in L. lia.
    + destruct (startswith sep (String c s)) eqn:E'.
      { apply (startswith_extend _ _ t) in E'. rewrite app_cons in E'.
        congruence. }
      destruct (find sep (s +:+ t)) as [j|] eqn:F; [|done].
      simpl. intros [= <-]. rewrite (IH j eq_refl). simpl.
      by destruct (j + String.length sep <=? String.length s)%nat.
Qed.

Lemma length_drop (n : nat) (s : string) :
  String.length (drop n s) = String.length s - n.
Proof.
  revert s; induction n as [|n IH]; intros [|c s]; simpl; try done.
Qed.

(** *** The first two pieces of [split] *)

Lemma split_from_head (n : nat) (sep s : string) :
  (is_Some (find sep s) -> 1 <= n) ->
  split_from n sep s !! 0 = Some (before sep s).
Proof.
  unfold before. destruct n as [|n]; simpl.
  - destruct (find sep s) as [i|]; [|done].
    intros H. specialize (H (mk_is_Some _ _ eq_refl)). lia.
  - by destruct (find sep s).
Qed.

Lemma split_head (sep s : string) :
  sep <> "" -> split sep s !! 0 = Some (before sep s).
Proof.
  intros Hsep. apply split_from_head. intros [i Hi].
  apply find_bound in Hi. destruct sep; [done|]. simpl in Hi. lia.
Qed.

Lemma split_second (sep s : string) (i : nat) :
  sep <> "" -> find sep s = Some i ->
  split sep s !! 1 = Some (before sep (drop (i + String.length sep) s)).
Proof.
  intros Hsep Hi. unfold split.
  pose proof (find_bound _ _ _ Hi) as Hb.
  assert (1 <= String.length sep) as Hl by (destruct sep; [done | simpl; lia]).
  destruct (String.length s) as [|k] eqn:Hs; [lia|].
  simpl. rewrite Hi. simpl.
  apply split_from_head. intros [j Hj].
  apply find_bound in Hj. rewrite length_drop in Hj. lia.
Qed.

(** The counter of [split_from] is immaterial once it covers the text. *)
Lemma split_from_enough (sep : string) (n : nat) :
  sep <> "" ->
  forall (m : nat) (s : string),
    String.length s <= n -> String.length s <= m ->
    split_from n sep s = split_from m sep s.
Proof.
  intros Hsep.
  assert (1 <= String.length sep) as Hl by (destruct sep; [done | simpl; lia]).
  induction n as [|n IH]; intros m s Hn Hm.
  - destruct s; [|simpl in Hn; lia].
    destruct sep; [done|]. by destruct m.
  - simpl. destruct (find sep s) as [i|] eqn:F;
      [|destruct m; simpl; by rewrite F].
    pose proof (find_bound _ _ _ F) as Hb.
    destruct m as [|m]; [lia|]. simpl. rewrite F. f_equal.
    apply IH; rewrite length_drop; lia.
Qed.

(** *** White space *)

Lemma isspace_not_backtick (c : ascii) :
  isspace c = true -> Ascii.eqb "`" c = false.
Proof.
  intros H. destruct (Ascii.eqb_spec "`" c) as [<-|]; [|done].
  by vm_compute in H.
Qed.

Lemma all_space_lstrip (s : string) : all_space s = true -> lstrip s = "".
Proof.
  induction s as [|c s IH]; simpl; [done|].
  intros [Hc Hs]%andb_true_iff. rewrite Hc. by apply IH.
Qed.

Lemma all_space_strip (s : string) : all_space s = true -> strip s = "".
Proof. intros H. unfold strip. by rewrite all_space_lstrip. Qed.

End PyFacts.

(** * Code extraction ([_extract_code]) *)

Section Extraction.
Import Py PyFacts.

Lemma fence_python_split : fence_python = fence +:+ "python".
Proof. reflexivity. Qed.

(** With a tagged fence at offset [i], the result is cut out of the text
    after it: up to the next tagged fence, then up to the first fence. *)
Lemma extract_code_fenced_eq (text : string) (i : nat) :
  find fence_python text = Some i ->
  _extract_code text =
    Ok (Some (strip (before fence
                       (before fence_python (drop (i + 9) text))))).
Proof.
  intros Hi. unfold _extract_code, contains. rewrite Hi.
  unfold index.
  rewrite (split_second fence_python text i) by done || exact Hi.
  change (String.length fence_python) with 9.
  by rewrite split_head.
Qed.

Lemma extract_code_unfenced (text : string) :
  find fence_python text = None ->
  _extract_code text = Ok (if truthy text then Some (strip text) else None).
Proof. intros H. unfold _extract_code, contains. by rewrite H. Qed.

Lemma all_space_no_fence (s : string) :
  all_space s = true -> find fence_python s = None.
Proof.
  unfold fence_python. induction s as [|c s IH]; [done|].
  simpl all_space. intros [Hc Hs]%andb_true_iff.
  rewrite find_cons, startswith_cons.
  rewrite (isspace_not_backtick c Hc). by rewrite IH.
Qed.

(** Without a fence in [rest] there is no tagged fence either, and both
    cuts keep all of [rest]. *)
Lemma before_no_fence (rest : string) :
  find fence rest = None ->
  before fence (before fence_python rest) = rest.
Proof.
  intros Hn. unfold before at 2.
  destruct (find fence_python rest) as [j|] eqn:Fj.
  - apply find_occurs in Fj. rewrite fence_python_split in Fj.
    apply startswith_app_l in Fj.
    by rewrite (find_none_no_occurrence _ _ j Hn) in Fj.
  - unfold before. by rewrite Hn.
Qed.

(** The first fence of [inner +:+ fence +:+ post] being the one written,
    the two cuts give [inner] unless a tagged fence starts one or two
    characters into that fence. *)
Lemma before_fence_inner (inner post : string) :
  find fence (inner +:+ fence +:+ post) = Some (String.length inner) ->
  startswith "`python" post = false ->
  startswith "``python" post = false ->
  before fence (before fence_python (inner +:+ fence +:+ post)) = inner.
Proof.
  set (rest := inner +:+ fence +:+ post).
  intros Hf H1 H2. unfold before at 2.
  destruct (find fence_python rest) as [j|] eqn:Fj.
  - pose proof (find_occurs _ _ _ Fj) as Ho.
    pose proof (find_bound _ _ _ Fj) as Hb.
    assert (String.length inner <= j) as Hle.
    { apply (find_leftmost _ _ _ _ Hf).
      rewrite fence_python_split in Ho. by apply startswith_app_l in Ho. }
    assert (j <> String.length inner + 1) as Hn1.
    { intros ->. unfold rest in Ho. rewrite drop_app_length in Ho.
      change (startswith "`python" post = true) in Ho. congruence. }
    assert (j <> String.length inner + 2) as Hn2.
    { intros ->. unfold rest in Ho. rewrite drop_app_length in Ho.
      change (startswith "``python" post = true) in Ho. congruence. }
    unfold before.
    assert (find fence (take j rest +:+ drop j rest)
            = Some (String.length inner)) as Hf'
      by (by rewrite take_drop).
    rewrite (find_in_prefix _ _ _ _ Hf').
    rewrite length_take by (change (String.length fence_python) with 9 in Hb; lia).
    change (String.length fence) with 3.
    destruct (String.length inner + 3 <=? j)%nat eqn:L.
    + apply Nat.leb_le in L. rewrite take_take by lia.
      apply take_app_length.
    + apply Nat.leb_gt in L.
      replace j with (String.length inner) by lia.
      apply take_app_length.
  - unfold before. rewrite Hf. apply take_app_length.
Qed.

End Extraction.

(** * The nodes, one outcome at a time *)

Ltac unfold_m :=
  unfold mbind, mret, M_bind, M_ret, bind, ret, raise, try_except, lift,
    emit, pd_read_csv, model_generate_content, subprocess_run_call,
    write_file in *.

Section Nodes.

Variable env : Env.
Variable api_key : string.

(** The reference file cannot be read: the exception leaves the node. *)
Lemma generate_read_fails (st : AgentState) (w : World) (e : exn) :
  read_csv_columns env (trace w) (files w) (csv_path st) = Raise e ->
  _generate_code_node env api_key st w = (after [EvReadCsv (csv_path st)] w, Raise e).
Proof.
  intros H. unfold _generate_code_node. unfold_m. simpl. by rewrite H.
Qed.

(** No code: nothing is written, the failure becomes the feedback. *)
Lemma generate_no_code (st : AgentState) (w : World) (cols : list string) :
  read_csv_columns env (trace w) (files w) (csv_path st) = Ok cols ->
  yields_no_code (reply env api_key st w) = true ->
  _generate_code_node env api_key st w =
    (after [EvPrompt (prompt_text st); EvReadCsv (csv_path st)] w,
     Ok (set_test_results (Some (no_code_feedback (reply env api_key st w)))
           (set_current_code None st))).
Proof.
  intros Hr Hn. unfold _generate_code_node. unfold_m. simpl.
  rewrite Hr. unfold reply, yields_no_code, no_code_feedback in *.
  destruct (generate_content _ _ _ _) as [text|e]; [|done].
  destruct (_extract_code text) as [code|e]; [|done].
  apply negb_true_iff in Hn. by rewrite Hn.
Qed.

Lemma generate_writes (st : AgentState) (w : World) (cols : list string)
    (text code : string) :
  read_csv_columns env (trace w) (files w) (csv_path st) = Ok cols ->
  reply env api_key st w = Ok text ->
  _extract_code text = Ok (Some code) ->
  code <> "" ->
  _generate_code_node env api_key st w =
    ({| files := <[parser_path st := code]> (files w);
        trace := EvWrite (parser_path st) code
                 :: EvMakedirs (Py.dirname (parser_path st))
                 :: EvPrompt (prompt_text st)
                 :: EvReadCsv (csv_path st) :: trace w |},
     Ok (set_current_code (Some code) st)).
Proof.
  intros Hr Hg He Hc. unfold _generate_code_node. unfold_m. simpl.
  rewrite Hr. unfold reply in Hg. rewrite Hg, He.
  by destruct code.
Qed.

(** [_run_tests_node] never raises. *)
Lemma run_tests_outcome (st : AgentState) (w : World) :
  _run_tests_node env st w =
    (after [EvSubprocess (pytest_cmd env) 60] w, Ok (tested st (test_outcome env w))).
Proof.
  unfold _run_tests_node, test_outcome, tested, pytest_cmd, after. unfold_m. simpl.
  destruct (subprocess_run _ _ _ _ _ _) as [cp|e]; [|done].
  by destruct (returncode cp =? 0)%Z.
Qed.

Lemma tested_complete (st : AgentState) (r : result CompletedProcess) :
  task_complete (tested st r) = verified r.
Proof.
  destruct r as [cp|e]; simpl; [|done].
  by destruct (returncode cp =? 0)%Z.
Qed.

Lemma tested_counters (st : AgentState) (r : result CompletedProcess) :
  attempt_count (tested st r) = attempt_count st /\
  max_attempts (tested st r) = max_attempts st.
Proof.
  destruct r as [cp|e]; simpl; [|done].
  by destruct (returncode cp =? 0)%Z.
Qed.

End Nodes.

(** * One graph step *)

Section Steps.

Variable env : Env.
Variable api_key : string.

(** What the state a generation cycle leaves can be: the fields the
    routing reads, and the counters, which it does not touch. *)
Lemma generate_frame (st st' : AgentState) (w w' : World) :
  _generate_code_node env api_key st w = (w', Ok st') ->
  attempt_count st' = attempt_count st /\
  max_attempts st' = max_attempts st /\
  task_complete st' = task_complete st.
Proof.
  unfold _generate_code_node. unfold_m. simpl.
  destruct (read_csv_columns _ _ _ _) as [cols|e]; [|done].
  destruct (generate_content _ _ _ _) as [text|e]; [|by intros [= <- <-]].
  destruct (_extract_code text) as [code|e]; [|by intros [= <- <-]].
  destruct (Py.truthy_opt code); by intros [= <- <-].
Qed.

Lemma generate_history (st : AgentState) (w w' : World)
    (r : result AgentState) (p : event -> bool) :
  _generate_code_node env api_key st w = (w', r) ->
  (forall path, p (EvReadCsv path) = false) ->
  (forall prompt, p (EvPrompt prompt) = false) ->
  (forall path, p (EvMakedirs path) = false) ->
  (forall path code, p (EvWrite path code) = false) ->
  count p (trace w') = count p (trace w).
Proof.
  intros H Hr Hp Hm Hw. revert H.
  unfold _generate_code_node. unfold_m. simpl.
  destruct (read_csv_columns _ _ _ _) as [cols|e];
    [|intros [= <- <-]; simpl; by rewrite Hr].
  destruct (generate_content _ _ _ _) as [text|e];
    [|intros [= <- <-]; simpl; by rewrite Hr, Hp].
  destruct (_extract_code text) as [code|e];
    [|intros [= <- <-]; simpl; by rewrite Hr, Hp].
  destruct (Py.truthy_opt code); intros [= <- <-]; simpl;
    by rewrite ?Hr, ?Hp, ?Hm, ?Hw.
Qed.

(** The node a step leaves for, and what the step does to the counters
    and the completion flag. *)
Lemma graph_step_inv (n n' : Node) (st st' : AgentState) (w w' : World) :
  graph_step env api_key n st w = (w', Ok (n', st')) ->
  max_attempts st' = max_attempts st /\
  match n with
  | plan =>
      n' = generate_code /\ attempt_count st' = attempt_count st /\
      task_complete st' = task_complete st
  | generate_code =>
      (n' = run_tests \/ n' = END) /\
      attempt_count st' = attempt_count st /\
      task_complete st' = task_complete st
  | run_tests =>
      attempt_count st' = attempt_count st /\
      (task_complete st' = true /\ n' = END \/
       task_complete st' = false /\
       (attempt_count st < max_attempts st)%Z /\ n' = self_fix \/
       task_complete st' = false /\
       (max_attempts st <= attempt_count st)%Z /\ n' = END)
  | self_fix =>
      n' = generate_code /\
      attempt_count st' = (attempt_count st + 1)%Z /\
      task_complete st' = task_complete st
  | END => False
  end.
Proof.
  destruct n; unfold graph_step, node_action, edge.
  - unfold _plan_node. unfold_m. simpl. by intros [= <- <- <-].
  - unfold_m. simpl.
    destruct (_generate_code_node _ _ _ _) as [w1 [st1|e]] eqn:G; [|done].
    apply generate_frame in G as (Ha & Hm & Hc).
    unfold _should_test.
    destruct (Py.truthy_opt (current_code st1)); simpl;
      intros [= <- <- <-]; auto.
  - unfold_m. simpl. rewrite run_tests_outcome.
    set (r := test_outcome _ _).
    destruct (tested_counters st r) as [Ha Hm].
    unfold _should_continue_fixing. rewrite Ha, Hm.
    destruct (task_complete (tested st r)) eqn:C; simpl.
    + intros [= <- <- <-]. auto.
    + destruct (attempt_count st <? max_attempts st)%Z eqn:L; simpl;
        intros [= <- <- <-]; rewrite C, Ha, Hm.
      * apply Z.ltb_lt in L. auto 10.
      * apply Z.ltb_ge in L. auto 10.
  - unfold _self_fix_node. unfold_m. simpl. by intros [= <- <- <-].
  - unfold_m. simpl. done.
Qed.

(** A step adds one generation cycle to the history exactly when it runs
    [generate_code], whether or not it ends in an exception. *)
Lemma graph_step_cycles (n : Node) (st : AgentState) (w w' : World)
    (r : result (Node * AgentState)) :
  graph_step env api_key n st w = (w', r) ->
  generation_cycles w' =
    generation_cycles w + (if decide (n = generate_code) then 1 else 0).
Proof.
  unfold generation_cycles.
  destruct n; unfold graph_step, node_action.
  - unfold _plan_node. unfold_m. simpl. intros [= <- <-]. simpl. lia.
  - unfold_m. simpl.
    destruct (_generate_code_node _ _ _ _) as [w1 r1] eqn:G.
    apply (generate_history _ _ _ _ is_generation) in G; try done.
    simpl in G.
    destruct r1 as [st1|e]; [case_match|];
      intros [= <- <-]; rewrite G; lia.
  - unfold_m. simpl. rewrite run_tests_outcome.
    case_match; intros [= <- <-]; simpl; lia.
  - unfold _self_fix_node. unfold_m. simpl. intros [= <- <-]. simpl. lia.
  - unfold_m. simpl. intros [= <- <-]. simpl. lia.
Qed.

End Steps.

(** * Runs *)

Section Runs.

Variable env : Env.
Variable api_key : string.

Lemma invoke_from_END (budget : nat) (st : AgentState) (w : World) :
  invoke_from env api_key budget END st w = (w, Ok (Some st)).
Proof. by destruct budget. Qed.

Lemma invoke_from_step (k : nat) (n : Node) (st : AgentState) (w : World) :
  n <> END ->
  invoke_from env api_key (S k) n st w =
    match graph_step env api_key n st w with
    | (w1, Ok c) => invoke_from env api_key k c.1 c.2 w1
    | (w1, Raise e) => (w1, Raise e)
    end.
Proof. by destruct n. Qed.

(** With [steps_ahead] steps to spend the budget does not run out, and
    the run adds at most [cycles_ahead] generation cycles. *)
Lemma invoke_from_bounded (budget : nat) :
  forall (n : Node) (st : AgentState) (w : World),
    steps_ahead n st <= budget ->
    exists w' r,
      invoke_from env api_key budget n st w = (w', r) /\
      r <> Ok None /\
      generation_cycles w' <= generation_cycles w + cycles_ahead n st.
Proof.
  induction budget as [|k IH]; intros n st w Hb.
  - destruct n; simpl in Hb; try lia.
    exists w, (Ok (Some st)). simpl. split_and!; [done | done | lia].
  - destruct (decide (n = END)) as [->|Hn].
    { exists w, (Ok (Some st)). simpl. split_and!; [done | done | lia]. }
    rewrite invoke_from_step by done.
    destruct (graph_step env api_key n st w) as [w1 [[n1 st1]|e]] eqn:G.
    + pose proof (graph_step_cycles _ _ _ _ _ _ _ G) as Hc.
      apply graph_step_inv in G as [Hm G].
      assert (steps_ahead n1 st1 <= k /\
              cycles_ahead n1 st1
              + (if decide (n = generate_code) then 1 else 0)
              <= cycles_ahead n st) as [Hs Hy].
      { destruct n; try done; unfold steps_ahead, cycles_ahead, remaining in *;
          simpl in *.
        - destruct G as (-> & Ha & _). rewrite Hm, Ha. lia.
        - destruct G as ([-> | ->] & Ha & _); rewrite ?Hm, ?Ha; lia.
        - destruct G as (Ha & [(_ & ->) | [(_ & Hlt & ->) | (_ & _ & ->)]]);
            rewrite ?Hm, ?Ha; lia.
        - destruct G as (-> & Ha & _). rewrite Hm, Ha. lia. }
      destruct (IH n1 st1 w1 Hs) as (w' & r & Hr & Hnone & Hcy).
      exists w', r. simpl. split_and!; [done | done | lia].
    + exists w1, (Raise e). split_and!; [done | done |].
      rewrite (graph_step_cycles _ _ _ _ _ _ _ G).
      destruct n; simpl; try lia; done.
Qed.

(** *** What holds of every configuration of a run *)

Lemma reachable_inv (target : string) (limit : Z) (w : World) (c : config) :
  reachable env api_key target limit w c ->
  max_attempts (cfg_state c) = limit /\
  (1 <= attempt_count (cfg_state c))%Z /\
  (attempt_count (cfg_state c) <= Z.max 1 limit)%Z /\
  (task_complete (cfg_state c) = true -> cfg_node c = END) /\
  (cfg_node c = self_fix ->
   (attempt_count (cfg_state c) < limit)%Z /\
   task_complete (cfg_state c) = false).
Proof.
  unfold reachable. revert c. apply rtc_ind_r.
  - simpl. split_and!; try done; lia.
  - intros c c' Hrtc [Hn Hstep] IH.
    destruct c as [[n st] w0], c' as [[n' st'] w'].
    unfold cfg_node, cfg_state, cfg_world in *. simpl in *.
    destruct IH as (Hm & H1 & Hle & Hc & Hf).
    apply graph_step_inv in Hstep as [Hm' G].
    assert (task_complete st = false) as Hfalse.
    { destruct (task_complete st); [by specialize (Hc eq_refl) | done]. }
    destruct n; try done.
    + destruct G as (-> & Ha & Ht). rewrite Hm', Ha, Ht.
      split_and!; try done; congruence.
    + destruct G as ([-> | ->] & Ha & Ht); rewrite Hm', Ha, Ht;
        split_and!; try done; congruence.
    + destruct G as (Ha & [(Ht & ->) | [(Ht & Hlt & ->) | (Ht & _ & ->)]]);
        rewrite Hm', Ha, Ht; split_and!; try done.
      intros _. split; [lia | done].
    + destruct G as (-> & Ha & Ht). rewrite Hm', Ha, Ht.
      destruct (Hf eq_refl) as [Hlt _].
      split_and!; try done; try congruence; lia.
Qed.

End Runs.

(** * Sample runs *)

Lemma fail_4_reachable : reachable env_fail "key" "icici" 3 w_empty fail_4.
Proof.
  unfold reachable.
  apply (rtc_l _ _ fail_1); [split; [discriminate | vm_compute; reflexivity]|].
  apply (rtc_l _ _ fail_2); [split; [discriminate | vm_compute; reflexivity]|].
  apply (rtc_l _ _ fail_3); [split; [discriminate | vm_compute; reflexivity]|].
  apply (rtc_l _ _ fail_4); [split; [discriminate | vm_compute; reflexivity]|].
  apply rtc_refl.
Defined.

Lemma pass_3_reachable : reachable env_pass "key" "icici" 3 w_empty pass_3.
Proof.
  unfold reachable.
  apply (rtc_l _ _ pass_1); [split; [discriminate | vm_compute; reflexivity]|].
  apply (rtc_l _ _ pass_2); [split; [discriminate | vm_compute; reflexivity]|].
  apply (rtc_l _ _ pass_3); [split; [discriminate | vm_compute; reflexivity]|].
  apply rtc_refl.
Defined.


Example fail_4_is_second_attempt :
  cfg_node fail_4 = generate_code /\ attempt_count (cfg_state fail_4) = 2%Z.
Proof. by vm_compute. Qed.

Example pass_3_is_done :
  cfg_node pass_3 = END /\ task_complete (cfg_state pass_3) = true.
Proof. by vm_compute. Qed.

(** Scenario: valid code, tests pass on the first call. *)
Example run_passes_at_once :
  let out := run env_pass "key" 9 "icici" None w_empty in
  generation_cycles out.1 = 1 /\
  (exists st, out.2 = Ok (Some st) /\ task_complete st = true /\
              attempt_count st = 1%Z).
Proof. split; [by vm_compute | eexists; by vm_compute]. Qed.

(** Scenario: valid code, tests fail twice and then pass, limit 3. *)
Example run_passes_third_time :
  let out := run env_third_time "key" 9 "icici" (Some 3%Z) w_empty in
  generation_cycles out.1 = 3 /\
  (exists st, out.2 = Ok (Some st) /\ task_complete st = true /\
              attempt_count st = 3%Z).
Proof. split; [by vm_compute | eexists; by vm_compute]. Qed.

(** Scenario: the service answers with the empty text. *)
Example run_without_code :
  let out := run env_empty "key" 9 "icici" None w_empty in
  generation_cycles out.1 = 1 /\ verifications out.1 = 0 /\
  count is_write (trace out.1) = 0 /\ files out.1 = ∅ /\
  (exists st, out.2 = Ok (Some st) /\ task_complete st = false /\
              test_results st = Some msg_no_code).
Proof. split_and!; try (by vm_compute). eexists; by vm_compute. Qed.

(** Scenario: valid code every cycle, tests never pass, limit 2. *)
Example run_exhausts_budget :
  let out := run env_fail "key" 6 "icici" (Some 2%Z) w_empty in
  generation_cycles out.1 = 2 /\
  (exists st, out.2 = Ok (Some st) /\ task_complete st = false /\
              attempt_count st = 2%Z /\
              test_results st = Some (msg_tests_failed "out" "err")).
Proof. split; [by vm_compute | eexists; by vm_compute]. Qed.

(** * The claims *)

(** C1 — Termination.  For every limit of at least 1 and every behaviour
    of the collaborators, a run given a budget of three graph steps per
    allowed attempt reaches [END] or stops on an exception; it never uses
    the budget up, and it goes through at most [limit + 1] generation
    cycles. *)
Theorem run_terminates (env : Env) (api_key target : string) (limit : Z)
    (w : World) (budget : nat) :
  (1 <= limit)%Z ->
  3 * Z.to_nat limit <= budget ->
  exists w' r,
    run env api_key budget target (Some limit) w = (w', r) /\
    r <> Ok None /\
    generation_cycles w' <= generation_cycles w + (Z.to_nat limit + 1).
Proof.
  intros Hl Hb. unfold run, invoke. simpl default.
  destruct (invoke_from_bounded env api_key budget plan
              (initial_state env target limit) w) as (w' & r & Hr & Hn & Hc).
  { unfold steps_ahead, remaining. simpl. lia. }
  exists w', r. split_and!; [done | done |].
  unfold cycles_ahead, remaining in Hc. simpl in Hc. lia.
Qed.

Lemma run_terminates_witness :
  exists w' r,
    run env_fail "key" 9 "icici" (Some 3%Z) w_empty = (w', r) /\
    r <> Ok None /\
    generation_cycles w' <= generation_cycles w_empty + (Z.to_nat 3 + 1).
Proof. apply run_terminates; [lia | simpl; lia]. Defined.

(** The sharper count behind C1: at most [limit] generation cycles. *)
Lemma run_cycles_within_limit (env : Env) (api_key target : string)
    (limit : Z) (w : World) (budget : nat) :
  (1 <= limit)%Z ->
  3 * Z.to_nat limit <= budget ->
  generation_cycles (run env api_key budget target (Some limit) w).1
  <= generation_cycles w + Z.to_nat limit.
Proof.
  intros Hl Hb. unfold run, invoke. simpl default.
  destruct (invoke_from_bounded env api_key budget plan
              (initial_state env target limit) w) as (w' & r & Hr & Hn & Hc).
  { unfold steps_ahead, remaining. simpl. lia. }
  rewrite Hr. unfold cycles_ahead, remaining in Hc. simpl in *. lia.
Qed.

(** C2 — Extraction precedence, as the code has it.  When the first
    tagged fence of the text is followed by [inner], a fence and [post],
    that fence being the first one after the tagged fence, and [post] does
    not go on with a backtick or two and the tag, the result is [inner]
    trimmed.  A non-empty text without a tagged fence gives the whole text
    trimmed, and the empty text gives [None]. *)
Theorem extract_code_precedence :
  (forall pre inner post : string,
     Py.find fence_python
       (pre +:+ fence_python +:+ inner +:+ fence +:+ post)
       = Some (String.length pre) ->
     Py.find fence (inner +:+ fence +:+ post) = Some (String.length inner) ->
     Py.startswith "`python" post = false ->
     Py.startswith "``python" post = false ->
     _extract_code (pre +:+ fence_python +:+ inner +:+ fence +:+ post)
     = Ok (Some (Py.strip inner))) /\
  (forall text : string,
     Py.contains fence_python text = false ->
     text <> "" ->
     _extract_code text = Ok (Some (Py.strip text))) /\
  _extract_code "" = Ok None.
Proof.
  split_and!.
  - intros pre inner post Hp Hi H1 H2.
    rewrite (extract_code_fenced_eq _ _ Hp).
    change 9 with (String.length fence_python).
    rewrite PyFacts.drop_app_length, PyFacts.drop_app_exact.
    by rewrite before_fence_inner.
  - intros text Hc Hne. unfold Py.contains in Hc.
    destruct (Py.find fence_python text) eqn:F; [done|].
    rewrite (extract_code_unfenced _ F). by destruct text.
  - reflexivity.
Qed.

Lemma extract_code_precedence_witness :
  _extract_code sample_reply = Ok (Some (Py.strip sample_inner)) /\
  _extract_code "print(1) " = Ok (Some (Py.strip "print(1) ")) /\
  _extract_code "" = Ok None.
Proof.
  destruct extract_code_precedence as (Hfenced & Hplain & Hempty).
  split_and!.
  - apply (Hfenced ("Here:" +:+ Py.nl) sample_inner (Py.nl +:+ "Done."));
      reflexivity.
  - apply Hplain; [reflexivity | discriminate].
  - exact Hempty.
Defined.

(** The claim C2 as written fails on a block closed by four backticks
    that go on with the tag: the first fence after the opening one starts
    right after [run_inner], yet the result keeps a backtick of it. *)
Lemma extract_code_fence_run_counterexample :
  Py.find fence_python run_reply = Some 0 /\
  run_reply = fence_python +:+ run_inner +:+ fence +:+ run_post /\
  Py.find fence (run_inner +:+ fence +:+ run_post)
  = Some (String.length run_inner) /\
  _extract_code run_reply = Ok (Some ("x" +:+ Py.nl +:+ "`")) /\
  _extract_code run_reply <> Ok (Some (Py.strip run_inner)).
Proof. split_and!; try reflexivity. by vm_compute. Qed.

(** C10 — Boundaries of the extraction.  A tagged fence with no fence
    after it gives all the text after it, trimmed.  A non-empty text of
    white space gives the empty text, and [_generate_code_node] does with
    an empty extraction what it does with [None]: nothing is written, the
    same feedback is left, and the graph goes to [END], not to the tests. *)
Theorem extract_code_boundaries :
  (forall pre rest : string,
     Py.find fence_python (pre +:+ fence_python +:+ rest)
       = Some (String.length pre) ->
     Py.contains fence rest = false ->
     _extract_code (pre +:+ fence_python +:+ rest)
     = Ok (Some (Py.strip rest))) /\
  (forall text : string,
     text <> "" -> Py.all_space text = true ->
     _extract_code text = Ok (Some "")) /\
  (forall (env : Env) (api_key : string) (st : AgentState) (w : World)
          (cols : list string) (text : string),
     read_csv_columns env (trace w) (files w) (csv_path st) = Ok cols ->
     reply env api_key st w = Ok text ->
     _extract_code text = Ok (Some "") \/ _extract_code text = Ok None ->
     let st' := set_test_results (Some msg_no_code) (set_current_code None st) in
     _generate_code_node env api_key st w
     = (after [EvPrompt (prompt_text st); EvReadCsv (csv_path st)] w, Ok st')
     /\ edge generate_code st' = Some END).
Proof.
  split_and!.
  - intros pre rest Hp Hc. unfold Py.contains in Hc.
    destruct (Py.find fence rest) eqn:F; [done|].
    rewrite (extract_code_fenced_eq _ _ Hp).
    change 9 with (String.length fence_python).
    rewrite PyFacts.drop_app_length, PyFacts.drop_app_exact.
    by rewrite before_no_fence.
  - intros text Hne Hs.
    rewrite (extract_code_unfenced _ (all_space_no_fence _ Hs)).
    rewrite (PyFacts.all_space_strip _ Hs). by destruct text.
  - intros env api_key st w cols text Hr Hg He st'. split; [|done].
    rewrite (generate_no_code env api_key st w cols Hr).
    + unfold no_code_feedback. rewrite Hg. by destruct He as [-> | ->].
    + unfold yields_no_code. rewrite Hg. by destruct He as [-> | ->].
Qed.

Lemma extract_code_boundaries_witness :
  _extract_code ("Sure." +:+ fence_python +:+ " x = 1 ") = Ok (Some "x = 1") /\
  _extract_code "   " = Ok (Some "") /\
  _generate_code_node env_blank "key" (cfg_state pass_1) w_empty
  = (after [EvPrompt (prompt_text (cfg_state pass_1));
            EvReadCsv (csv_path (cfg_state pass_1))] w_empty,
     Ok (set_test_results (Some msg_no_code)
           (set_current_code None (cfg_state pass_1)))).
Proof.
  destruct extract_code_boundaries as (Hopen & Hblank & Hnode).
  split_and!.
  - apply (Hopen "Sure." " x = 1 "); reflexivity.
  - apply Hblank; [discriminate | reflexivity].
  - apply (Hnode env_blank "key" (cfg_state pass_1) w_empty cols_expected "   ");
      [reflexivity | reflexivity | left; reflexivity].
Defined.

(** C3 — The attempt counter, as the code keeps it.  It starts at 1; a
    graph step adds exactly 1 to it when it runs [self_fix] and leaves it
    alone otherwise, so it never decreases; [self_fix] only runs after a
    failed verification with attempts left; and for a limit of at least 0
    it never exceeds [limit + 1]. *)
Theorem attempt_counter (env : Env) (api_key target : string) (limit : Z)
    (w : World) :
  attempt_count (initial_state env target limit) = 1%Z /\
  (forall c c' : config,
     step_to env api_key c c' ->
     attempt_count (cfg_state c') =
       if decide (cfg_node c = self_fix)
       then (attempt_count (cfg_state c) + 1)%Z
       else attempt_count (cfg_state c)) /\
  (forall c : config,
     reachable env api_key target limit w c ->
     cfg_node c = self_fix ->
     task_complete (cfg_state c) = false /\
     (attempt_count (cfg_state c) < limit)%Z) /\
  ((0 <= limit)%Z ->
   forall c : config,
     reachable env api_key target limit w c ->
     (attempt_count (cfg_state c) <= limit + 1)%Z).
Proof.
  split_and!.
  - reflexivity.
  - intros [[n st] w0] [[n' st'] w'] [Hn Hstep].
    unfold cfg_node, cfg_state, cfg_world in *. simpl in *.
    apply graph_step_inv in Hstep as [_ G].
    destruct n; try done; simpl; intuition.
  - intros c Hc Hf.
    destruct (reachable_inv _ _ _ _ _ _ Hc) as (_ & _ & _ & _ & H).
    destruct (H Hf). done.
  - intros Hl c Hc.
    destruct (reachable_inv _ _ _ _ _ _ Hc) as (_ & _ & H & _). lia.
Qed.

Lemma attempt_counter_witness :
  attempt_count (cfg_state fail_0) = 1%Z /\
  attempt_count (cfg_state fail_4) = (attempt_count (cfg_state fail_3) + 1)%Z /\
  attempt_count (cfg_state fail_3) = attempt_count (cfg_state fail_2) /\
  (task_complete (cfg_state fail_3) = false /\
   (attempt_count (cfg_state fail_3) < 3)%Z) /\
  (attempt_count (cfg_state fail_4) <= 3 + 1)%Z.
Proof.
  destruct (attempt_counter env_fail "key" "icici" 3 w_empty)
    as (Hinit & Hstep & Hfix & Hbound).
  refine (conj _ (conj _ (conj _ (conj _ _)))).
  - exact Hinit.
  - apply (Hstep fail_3 fail_4). split; [discriminate | vm_compute; reflexivity].
  - apply (Hstep fail_2 fail_3). split; [discriminate | vm_compute; reflexivity].
  - apply (Hfix fail_3); [|reflexivity].
    apply (rtc_l _ _ fail_1); [split; [discriminate | vm_compute; reflexivity]|].
    apply (rtc_l _ _ fail_2); [split; [discriminate | vm_compute; reflexivity]|].
    apply (rtc_l _ _ fail_3); [split; [discriminate | vm_compute; reflexivity]|].
    apply rtc_refl.
  - apply (Hbound ltac:(lia) fail_4 fail_4_reachable).
Defined.

(** The claim C3 as written fails for a negative limit, which [run]
    accepts: the counter starts above [limit + 1]. *)
Lemma attempt_bound_negative_limit_counterexample :
  reachable env_fail "key" "icici" (-1) w_empty
    (start env_fail "icici" (-1) w_empty) /\
  attempt_count (cfg_state (start env_fail "icici" (-1) w_empty)) = 1%Z /\
  ~ (attempt_count (cfg_state (start env_fail "icici" (-1) w_empty))
     <= -1 + 1)%Z.
Proof. split_and!; [apply rtc_refl | reflexivity | simpl; lia]. Qed.

(** C9 — With a limit of at least 1 the attempt counter never exceeds the
    limit itself: [self_fix] runs only while the counter is below the
    limit, so after its increment the counter is at most the limit. *)
Theorem attempt_within_limit (env : Env) (api_key target : string)
    (limit : Z) (w : World) (c : config) :
  (1 <= limit)%Z ->
  reachable env api_key target limit w c ->
  (attempt_count (cfg_state c) <= limit)%Z /\
  (cfg_node c = self_fix -> (attempt_count (cfg_state c) < limit)%Z).
Proof.
  intros Hl Hc.
  destruct (reachable_inv _ _ _ _ _ _ Hc) as (_ & _ & H & _ & Hf).
  split; [lia | by intros []%Hf].
Qed.

Lemma attempt_within_limit_witness :
  (attempt_count (cfg_state fail_4) <= 3)%Z /\
  (cfg_node fail_4 = self_fix -> (attempt_count (cfg_state fail_4) < 3)%Z).
Proof.
  apply (attempt_within_limit env_fail "key" "icici" 3 w_empty fail_4);
    [lia | exact fail_4_reachable].
Defined.

(** C4 — After the tests.  The step that runs [run_tests] never raises;
    it sets the completion flag to whether the verification succeeded,
    leaves for [END] exactly when it succeeded or the counter has reached
    the limit, and for [self_fix] exactly when it failed with the counter
    below the limit.  A run whose flag is set is at [END]: no graph step
    follows, so nothing more is generated or verified. *)
Theorem testing_transitions (env : Env) (api_key : string) :
  (forall (st : AgentState) (w : World),
     let ok := verified (test_outcome env (after [EvNode run_tests] w)) in
     exists (n' : Node) (st' : AgentState) (w' : World),
       graph_step env api_key run_tests st w = (w', Ok (n', st')) /\
       task_complete st' = ok /\
       (n' = END <->
        ok = true \/
        ok = false /\ (attempt_count st >= max_attempts st)%Z) /\
       (n' = self_fix <->
        ok = false /\ (attempt_count st < max_attempts st)%Z)) /\
  (forall (target : string) (limit : Z) (w : World) (c : config),
     reachable env api_key target limit w c ->
     task_complete (cfg_state c) = true ->
     cfg_node c = END /\
     (forall c', ~ step_to env api_key c c') /\
     (forall budget,
        invoke_from env api_key budget (cfg_node c) (cfg_state c) (cfg_world c)
        = (cfg_world c, Ok (Some (cfg_state c))))).
Proof.
  split.
  - intros st w ok.
    unfold graph_step, node_action, edge. unfold_m. simpl.
    rewrite run_tests_outcome.
    change {| files := files w; trace := EvNode run_tests :: trace w |}
      with (after [EvNode run_tests] w).
    set (r := test_outcome env (after [EvNode run_tests] w)) in *.
    destruct (tested_counters st r) as [Ha Hm].
    pose proof (tested_complete st r) as Hc. fold ok in Hc.
    unfold _should_continue_fixing. rewrite Ha, Hm, Hc.
    destruct ok; simpl.
    + eexists _, _, _. split_and!; [done | done | |]; intuition; done.
    + destruct (attempt_count st <? max_attempts st)%Z eqn:L; simpl;
        eexists _, _, _; (split_and!; [done | done | |]).
      * apply Z.ltb_lt in L. intuition; try done; lia.
      * apply Z.ltb_lt in L. intuition.
      * apply Z.ltb_ge in L. intuition; lia.
      * apply Z.ltb_ge in L. intuition; try done; lia.
  - intros target limit w c Hc Ht.
    destruct (reachable_inv _ _ _ _ _ _ Hc) as (_ & _ & _ & H & _).
    specialize (H Ht). split_and!; [done | |].
    + intros c' [Hn _]. done.
    + intros budget. rewrite H. apply invoke_from_END.
Qed.

Lemma testing_transitions_witness :
  cfg_node pass_3 = END /\
  (forall c', ~ step_to env_pass "key" pass_3 c') /\
  (forall budget,
     invoke_from env_pass "key" budget (cfg_node pass_3) (cfg_state pass_3)
       (cfg_world pass_3)
     = (cfg_world pass_3, Ok (Some (cfg_state pass_3)))).
Proof.
  destruct (testing_transitions env_pass "key") as [_ Hdone].
  apply (Hdone "icici" 3%Z w_empty pass_3 pass_3_reachable).
  reflexivity.
Defined.

(** C5 — No-code short-circuit.  In a cycle whose generation yields no
    code (the service raises, or answers with a text from which nothing or
    the empty text is extracted), the run ends with that cycle: the file
    store is as it was, no write and no test process appear in the
    history, the feedback is the failure text (the fixed sentence for an
    extraction that gives nothing, the sentence with the exception's text
    for an exception), and the attempt counter and the completion flag
    are untouched.  The service is only asked once the
    reference file has been read; a failed read is another failure, which
    leaves the node as an exception ([generate_read_fails]). *)
Theorem no_code_short_circuit (env : Env) (api_key : string)
    (st : AgentState) (w : World) (cols : list string) (budget : nat) :
  let w0 := after [EvNode generate_code] w in
  read_csv_columns env (trace w0) (files w0) (csv_path st) = Ok cols ->
  yields_no_code (reply env api_key st w0) = true ->
  exists (w' : World) (st' : AgentState),
    invoke_from env api_key (S budget) generate_code st w = (w', Ok (Some st')) /\
    files w' = files w /\
    trace w' = EvPrompt (prompt_text st) :: EvReadCsv (csv_path st)
               :: EvNode generate_code :: trace w /\
    verifications w' = verifications w /\
    count is_write (trace w') = count is_write (trace w) /\
    generation_cycles w' = generation_cycles w + 1 /\
    current_code st' = None /\
    test_results st' =
      Some (match reply env api_key st w0 with
            | Raise e =>
                "An exception occurred during code generation: " +:+ str_exn e
            | Ok text =>
                match _extract_code text with
                | Ok _ => "Failed to generate valid Python code."
                | Raise e =>
                    "An exception occurred during code generation: "
                    +:+ str_exn e
                end
            end) /\
    attempt_count st' = attempt_count st /\
    task_complete st' = task_complete st.
Proof.
  intros w0 Hr Hn.
  rewrite invoke_from_step by done.
  unfold graph_step, node_action. unfold_m. simpl.
  change {| files := files w; trace := EvNode generate_code :: trace w |}
    with w0.
  rewrite (generate_no_code env api_key st w0 cols Hr Hn).
  simpl. rewrite invoke_from_END.
  eexists _, _. split; [reflexivity|].
  unfold verifications, generation_cycles. simpl.
  split_and!; try done. lia.
Qed.

Lemma no_code_short_circuit_witness :
  exists (w' : World) (st' : AgentState),
    invoke_from env_blank "key" 1 generate_code (cfg_state pass_1) w_empty
    = (w', Ok (Some st')) /\
    files w' = files w_empty /\
    trace w' = EvPrompt (prompt_text (cfg_state pass_1))
               :: EvReadCsv (csv_path (cfg_state pass_1))
               :: EvNode generate_code :: trace w_empty /\
    verifications w' = verifications w_empty /\
    count is_write (trace w') = count is_write (trace w_empty) /\
    generation_cycles w' = generation_cycles w_empty + 1 /\
    current_code st' = None /\
    test_results st' = Some "Failed to generate valid Python code." /\
    attempt_count st' = attempt_count (cfg_state pass_1) /\
    task_complete st' = task_complete (cfg_state pass_1).
Proof.
  apply (no_code_short_circuit env_blank "key" (cfg_state pass_1) w_empty
           cols_expected 0); reflexivity.
Defined.

(** C6 — Verification outcomes, as the code records them.  The node never
    raises.  Exit code 0 sets the flag and leaves the success message; any
    other exit code clears the flag and leaves the failure text made of a
    headline, the standard output under [STDOUT:] and the standard error
    under [STDERR:]; an exception of the call made with a timeout of 60
    (time-out or spawn error) clears the flag and leaves its text. *)
Theorem verification_outcomes (env : Env) (st : AgentState) (w : World) :
  exists st' : AgentState,
    _run_tests_node env st w
    = (after [EvSubprocess (pytest_cmd env) 60] w, Ok st') /\
    match subprocess_run env (trace w) (files w) (pytest_cmd env) (cwd env) 60 with
    | Ok cp =>
        if decide (returncode cp = 0%Z) then
          task_complete st' = true /\
          test_results st' = Some "All tests passed successfully."
        else
          task_complete st' = false /\
          test_results st' =
            Some ("Tests failed." +:+ Py.nl +:+ "STDOUT:" +:+ Py.nl +:+
                  stdout cp +:+ Py.nl +:+ "STDERR:" +:+ Py.nl +:+ stderr cp)
    | Raise e =>
        task_complete st' = false /\
        test_results st' =
          Some ("An unexpected error occurred while running tests: "
                +:+ str_exn e)
    end.
Proof.
  exists (tested st (test_outcome env w)).
  split; [apply run_tests_outcome|].
  unfold test_outcome.
  destruct (subprocess_run _ _ _ _ _ _) as [cp|e]; simpl; [|done].
  destruct (decide (returncode cp = 0%Z)) as [->|Hne]; [done|].
  apply Z.eqb_neq in Hne. by rewrite Hne.
Qed.

(** The claim C6 as written fails on a failing test process: the feedback
    is not the mere concatenation of the two outputs. *)
Lemma failure_feedback_counterexample :
  exists st' : AgentState,
    (_run_tests_node env_fail (cfg_state fail_2) (cfg_world fail_2)).2 = Ok st' /\
    task_complete st' = false /\
    test_results st' =
      Some ("Tests failed." +:+ Py.nl +:+ "STDOUT:" +:+ Py.nl +:+ "out"
            +:+ Py.nl +:+ "STDERR:" +:+ Py.nl +:+ "err") /\
    test_results st' <> Some (stdout proc_fail +:+ stderr proc_fail).
Proof. eexists. split_and!; [by vm_compute | done | done | by vm_compute]. Qed.

(** C7 — The prompt, as the code builds it.  The reference file is read
    first, and a failed read ends the step before any prompt is sent; but
    the prompt is the fixed text below, in which only the target and the
    feedback vary.  Two generation steps whose collaborators differ in
    nothing but the column names read from the reference file send the
    same prompt, and end in the same state and world. *)
Theorem prompt_ignores_columns (env1 env2 : Env) (api_key : string)
    (st : AgentState) (w : World) (cols1 cols2 : list string) :
  generate_content env1 = generate_content env2 ->
  read_csv_columns env1 (trace w) (files w) (csv_path st) = Ok cols1 ->
  read_csv_columns env2 (trace w) (files w) (csv_path st) = Ok cols2 ->
  let nl := String "010"%char "" in
  let ind := "        " in
  let prompt :=
    nl +:+
    ind +:+ "You are an expert Python developer. Generate a parser for '"
        +:+ target_bank st +:+ "' bank statements." +:+ nl +:+
    nl +:+
    ind +:+ "**CRITICAL INSTRUCTIONS:**" +:+ nl +:+
    ind +:+ "1.  The PDF data has exactly 5 columns. Your parser must extract and handle exactly 5 columns." +:+ nl +:+
    ind +:+ "2.  The required output DataFrame columns are STRICTLY: `['Date', 'Description', 'Debit Amt', 'Credit Amt', 'Balance']`." +:+ nl +:+
    ind +:+ "3.  **DO NOT HALLUCINATE OR ADD EXTRA COLUMNS.** Specifically, do not add a 'Chq./Ref.No.' column. This is the most common cause of failure." +:+ nl +:+
    ind +:+ "4.  Use `pdfplumber` and `page.extract_tables()`." +:+ nl +:+
    ind +:+ "5.  Create the DataFrame from a list of dictionaries to ensure column mapping is correct." +:+ nl +:+
    nl +:+
    ind +:+ "**Feedback from previous attempt:** "
        +:+ match test_results st with Some fb => fb | None => "None" end
        +:+ nl +:+
    nl +:+
    ind +:+ "Provide only the complete, runnable Python code." +:+ nl +:+
    ind in
  _generate_code_node env1 api_key st w = _generate_code_node env2 api_key st w /\
  prompts_sent (trace (_generate_code_node env1 api_key st w).1)
  = prompt :: prompts_sent (trace w) /\
  prompts_sent (trace (_generate_code_node env2 api_key st w).1)
  = prompt :: prompts_sent (trace w) /\
  (exists later : list event,
     trace (_generate_code_node env1 api_key st w).1
     = (later ++ EvPrompt prompt :: EvReadCsv (csv_path st) :: trace w)%list) /\
  (forall (env : Env) (e : exn),
     read_csv_columns env (trace w) (files w) (csv_path st) = Raise e ->
     _generate_code_node env api_key st w
     = ({| files := files w; trace := EvReadCsv (csv_path st) :: trace w |},
        Raise e) /\
     prompts_sent (trace (_generate_code_node env api_key st w).1)
     = prompts_sent (trace w)).
Proof.
  intros Hg H1 H2 nl ind prompt.
  change prompt with (prompt_text st). clear prompt.
  assert (forall env cols,
            read_csv_columns env (trace w) (files w) (csv_path st) = Ok cols ->
            prompts_sent (trace (_generate_code_node env api_key st w).1)
            = prompt_text st :: prompts_sent (trace w)) as Hp.
  { intros env cols Hr. unfold _generate_code_node. unfold_m. simpl.
    rewrite Hr.
    destruct (generate_content _ _ _ _) as [text|e]; [|done].
    destruct (_extract_code text) as [code|e]; [|done].
    by destruct (Py.truthy_opt code). }
  split_and!; [| by apply (Hp env1 cols1) | by apply (Hp env2 cols2) | |].
  - unfold _generate_code_node. unfold_m. simpl.
    by rewrite H1, H2, Hg.
  - unfold _generate_code_node. unfold_m. simpl. rewrite H1.
    destruct (generate_content _ _ _ _) as [text|e]; [|by exists []].
    destruct (_extract_code text) as [code|e]; [|by exists []].
    destruct (Py.truthy_opt code); [|by exists []].
    simpl. by eexists [_; _].
  - intros env e Hr. rewrite (generate_read_fails env api_key st w e Hr).
    done.
Qed.

Lemma prompt_ignores_columns_witness :
  _generate_code_node env_fail "key" (cfg_state fail_1) (cfg_world fail_1)
  = _generate_code_node env_fail_other_columns "key" (cfg_state fail_1)
      (cfg_world fail_1) /\
  prompts_sent
    (trace (_generate_code_node env_fail "key" (cfg_state fail_1)
              (cfg_world fail_1)).1)
  = prompt_text (cfg_state fail_1) :: prompts_sent (trace (cfg_world fail_1)) /\
  prompts_sent
    (trace (_generate_code_node env_fail_other_columns "key"
              (cfg_state fail_1) (cfg_world fail_1)).1)
  = prompt_text (cfg_state fail_1) :: prompts_sent (trace (cfg_world fail_1)) /\
  prompts_sent
    (trace (_generate_code_node env_unreadable "key" (cfg_state fail_1)
              (cfg_world fail_1)).1)
  = prompts_sent (trace (cfg_world fail_1)).
Proof.
  destruct (prompt_ignores_columns env_fail env_fail_other_columns "key"
              (cfg_state fail_1) (cfg_world fail_1)
              cols_expected ["Posted"; "Payee"; "Amount"]
              eq_refl eq_refl eq_refl)
    as (Hsame & Hp1 & Hp2 & _ & Hfail).
  refine (conj Hsame (conj Hp1 (conj Hp2 _))).
  apply (Hfail env_unreadable (Exn OSError "No such file or directory")).
  reflexivity.
Defined.

(** The claim C7 as written fails: with reference files of different
    column names the two prompts are the same text. *)
Lemma prompt_same_for_other_columns_counterexample :
  read_csv_columns env_fail [] ∅ (csv_path (cfg_state fail_1))
  = Ok cols_expected /\
  read_csv_columns env_fail_other_columns [] ∅ (csv_path (cfg_state fail_1))
  = Ok ["Posted"; "Payee"; "Amount"] /\
  cols_expected <> ["Posted"; "Payee"; "Amount"] /\
  prompts_sent
    (trace (_generate_code_node env_fail "key" (cfg_state fail_1) w_empty).1)
  = prompts_sent
      (trace (_generate_code_node env_fail_other_columns "key"
                (cfg_state fail_1) w_empty).1).
Proof. split_and!; try reflexivity. discriminate. Qed.





(** * Beyond the claims: the extraction *)

Section MoreText.
Import Py PyFacts.

Lemma drop_drop (n k : nat) (s : string) : drop k (drop n s) = drop (n + k) s.
Proof.
  revert s; induction n as [|n IH]; intros s; [done|].
  destruct s as [|c s]; simpl; [by destruct k | apply IH].
Qed.

Lemma find_none_intro (sep s : string) :
  (forall k, startswith sep (drop k s) = false) -> find sep s = None.
Proof.
  induction s as [|c s IH]; intros H.
  - pose proof (H 0) as H0. simpl in *. by rewrite H0.
  - pose proof (H 0) as H0. change (drop 0 (String c s)) with (String c s) in H0.
    rewrite find_cons, H0.
    rewrite IH; [done|]. intros k. apply (H (S k)).
Qed.

Lemma find_extend (sep s t : string) (i : nat) :
  find sep s = Some i -> find sep (s +:+ t) = Some i.
Proof.
  revert i; induction s as [|c s IH]; intros i.
  - simpl. destruct (startswith sep "") eqn:E; [|done].
    intros [= <-]. destruct sep; [|done]. by destruct t.
  - rewrite app_cons, !find_cons.
    destruct (startswith sep (String c s)) eqn:E.
    + intros [= <-]. rewrite <- app_cons.
      by rewrite (startswith_extend _ _ t E).
    + destruct (find sep s) as [j|] eqn:F; [|done].
      simpl. intros [= <-].
      destruct (startswith sep (String c (s +:+ t))) eqn:E'.
      * rewrite <- app_cons in E'. apply find_bound in F.
        rewrite (startswith_restrict _ _ _ E') in E; [done | simpl; lia].
      * by rewrite (IH j eq_refl).
Qed.

Lemma find_take_none (sep s : string) (n : nat) :
  find sep s = None -> find sep (take n s) = None.
Proof.
  intros H. destruct (find sep (take n s)) as [i|] eqn:F; [|done].
  apply (find_extend _ _ (drop n s)) in F. rewrite take_drop in F. congruence.
Qed.

Lemma find_drop_none (sep s : string) (n : nat) :
  find sep s = None -> find sep (drop n s) = None.
Proof.
  intros H. apply find_none_intro. intros k. rewrite drop_drop.
  by apply find_none_no_occurrence.
Qed.

Lemma lstrip_is_drop (s : string) : exists k, lstrip s = drop k s.
Proof.
  induction s as [|c s [k IH]]; [by exists 0|].
  simpl. destruct (isspace c); [by exists (S k) | by exists 0].
Qed.

Lemma rstrip_is_take (s : string) : exists k, rstrip s = take k s.
Proof.
  induction s as [|c s [k IH]]; [by exists 0|].
  simpl. destruct (rstrip s) as [|a r] eqn:R.
  - destruct (isspace c); [by exists 0 | exists 1; simpl; by destruct s].
  - exists (S k). simpl. by rewrite IH.
Qed.

Lemma before_no_sep (sep s : string) :
  sep <> "" -> find sep (before sep s) = None.
Proof.
  intros Hsep. unfold before. destruct (find sep s) as [i|] eqn:F; [|done].
  pose proof (find_bound _ _ _ F) as Hb.
  rewrite <- (take_drop i s) in F.
  rewrite (find_in_prefix _ _ _ _ F), length_take by lia.
  destruct sep as [|a sep]; [done|]. simpl String.length.
  destruct (i + S (String.length sep) <=? i)%nat eqn:L; [|done].
  apply Nat.leb_le in L. lia.
Qed.

Lemma strip_no_sep (sep s : string) :
  find sep s = None -> find sep (strip s) = None.
Proof.
  intros H. unfold strip.
  destruct (lstrip_is_drop s) as [k ->].
  destruct (rstrip_is_take (drop k s)) as [n ->].
  by apply find_take_none, find_drop_none.
Qed.

(** *** Trimming *)

Lemma length_lstrip (s : string) : String.length (lstrip s) <= String.length s.
Proof.
  induction s as [|c s IH]; simpl; [done|].
  destruct (isspace c); simpl; lia.
Qed.

Lemma lstrip_fixed_head (c : ascii) (s : string) :
  lstrip (String c s) = String c s -> isspace c = false.
Proof.
  simpl. destruct (isspace c); [|done].
  intros H. pose proof (length_lstrip s) as Hl. rewrite H in Hl.
  simpl in Hl. lia.
Qed.

Lemma lstrip_idem (s : string) : lstrip (lstrip s) = lstrip s.
Proof.
  induction s as [|c s IH]; simpl; [done|].
  destruct (isspace c) eqn:E; [done|]. simpl. by rewrite E.
Qed.

Lemma rstrip_idem (s : string) : rstrip (rstrip s) = rstrip s.
Proof.
  induction s as [|c s IH]; simpl; [done|].
  destruct (rstrip s) as [|a r] eqn:R.
  - destruct (isspace c) eqn:E; simpl; [done | by rewrite E].
  - simpl in *. by rewrite IH.
Qed.

Lemma lstrip_rstrip (s : string) :
  lstrip s = s -> lstrip (rstrip s) = rstrip s.
Proof.
  destruct s as [|c s]; [done|]. intros H.
  apply lstrip_fixed_head in H. simpl.
  destruct (rstrip s); rewrite ?H; simpl; by rewrite ?H.
Qed.

Lemma strip_trimmed (s : string) :
  lstrip (strip s) = strip s /\ rstrip (strip s) = strip s.
Proof.
  unfold strip. split; [|apply rstrip_idem].
  apply lstrip_rstrip, lstrip_idem.
Qed.

Lemma all_space_rstrip (s : string) : all_space s = true -> rstrip s = "".
Proof.
  induction s as [|c s IH]; simpl; [done|].
  intros [Hc Hs]%andb_true_iff. by rewrite (IH Hs), Hc.
Qed.

Lemma rstrip_app_space (s t : string) :
  all_space t = true -> rstrip (s +:+ t) = rstrip s.
Proof.
  intros Ht. induction s as [|c s IH].
  - rewrite app_nil_l. by apply all_space_rstrip.
  - rewrite app_cons. simpl. by rewrite IH.
Qed.

(** A text with neither a fence in it nor a backtick after it: the first
    fence of what follows is the one written. *)
Lemma find_fence_after (s post : string) (c : ascii) :
  find fence s = None -> Ascii.eqb "`" c = false ->
  find fence (s +:+ String c (fence +:+ post)) = Some (S (String.length s)).
Proof.
  intros Hs Hc. induction s as [|a s IH].
  - rewrite app_nil_l, find_cons. unfold fence at 1.
    rewrite startswith_cons, Hc.
    assert (find fence (fence +:+ post) = Some 0) as ->; [|done].
    unfold fence. by rewrite !app_cons.
  - rewrite find_cons in Hs.
    destruct (startswith fence (String a s)) eqn:E; [done|].
    destruct (find fence s) as [j|] eqn:F; [done|].
    rewrite app_cons, find_cons, (IH eq_refl).
    assert (startswith fence (String a (s +:+ String c (fence +:+ post)))
            = false) as ->; [|done].
    unfold fence at 1 in E. unfold fence at 1.
    rewrite startswith_cons in *.
    destruct (Ascii.eqb "`" a); [|done].
    destruct s as [|b s]; [rewrite app_nil_l, startswith_cons; by rewrite Hc|].
    rewrite app_cons, startswith_cons in *.
    destruct (Ascii.eqb "`" b); [|done].
    destruct s as [|d s]; [rewrite app_nil_l, startswith_cons; by rewrite Hc|].
    rewrite app_cons, startswith_cons in *.
    by destruct (Ascii.eqb "`" d).
Qed.

End MoreText.

(** X1 — [_extract_code] never raises: the second piece it indexes is
    there whenever the tag is, and the first piece always is.  It returns
    [None] for the empty text and for no other. *)
Theorem extract_code_total (text : string) :
  exists o : option string,
    _extract_code text = Ok o /\ (o = None <-> text = "").
Proof.
  destruct (Py.find fence_python text) as [i|] eqn:F.
  - eexists. split; [by apply extract_code_fenced_eq|].
    split; [done|]. intros ->. done.
  - eexists. split; [by apply extract_code_unfenced|].
    destruct text; simpl; split; done.
Qed.

(** X2 — Whatever [_extract_code] extracts is trimmed: it neither starts
    nor ends with white space, so trimming it again changes nothing. *)
Theorem extract_code_trimmed (text code : string) :
  _extract_code text = Ok (Some code) ->
  Py.lstrip code = code /\ Py.rstrip code = code /\ Py.strip code = code.
Proof.
  intros H.
  assert (exists s, code = Py.strip s) as [s ->].
  { destruct (Py.find fence_python text) as [i|] eqn:F.
    - rewrite (extract_code_fenced_eq _ _ F) in H. injection H as <-. eauto.
    - rewrite (extract_code_unfenced _ F) in H.
      destruct (Py.truthy text); [|done]. injection H as <-. eauto. }
  destruct (strip_trimmed s) as [Hl Hr]. split_and!; [done | done |].
  unfold Py.strip at 1. by rewrite Hl, Hr.
Qed.

Lemma extract_code_trimmed_witness :
  Py.lstrip "x = 1" = "x = 1" /\ Py.rstrip "x = 1" = "x = 1" /\
  Py.strip "x = 1" = "x = 1".
Proof. apply (extract_code_trimmed sample_reply "x = 1"). reflexivity. Defined.

(** X3 — From a text with a tagged fence, [_extract_code] always extracts
    something, and what it extracts holds no fence: no backtick triple of
    the reply leaks into the parser file. *)
Theorem extract_code_fenced_has_no_fence (text : string) :
  Py.contains fence_python text = true ->
  exists code : string,
    _extract_code text = Ok (Some code) /\ Py.contains fence code = false.
Proof.
  unfold Py.contains at 1.
  destruct (Py.find fence_python text) as [i|] eqn:F; [intros _ | done].
  eexists. split; [by apply extract_code_fenced_eq|].
  unfold Py.contains. rewrite strip_no_sep; [done|].
  by apply before_no_sep.
Qed.

Lemma extract_code_fenced_has_no_fence_witness :
  exists code : string,
    _extract_code run_reply = Ok (Some code) /\ Py.contains fence code = false.
Proof. apply extract_code_fenced_has_no_fence. reflexivity. Defined.

(** X4 — Clean code comes back unchanged.  Code that is not empty, is
    trimmed and holds no fence is extracted as it is when it is the whole
    reply, and also when the reply gives it on lines of its own inside the
    first tagged block, whatever prose comes before the block and after
    it (short of a fence of four or five backticks going on with the
    tag). *)
Theorem extract_code_of_clean_code (code : string) :
  code <> "" ->
  Py.lstrip code = code ->
  Py.rstrip code = code ->
  Py.contains fence code = false ->
  _extract_code code = Ok (Some code) /\
  (forall pre post : string,
     Py.find fence_python
       (pre +:+ fence_python +:+ Py.nl +:+ code +:+ Py.nl +:+ fence +:+ post)
       = Some (String.length pre) ->
     Py.startswith "`python" post = false ->
     Py.startswith "``python" post = false ->
     _extract_code
       (pre +:+ fence_python +:+ Py.nl +:+ code +:+ Py.nl +:+ fence +:+ post)
     = Ok (Some code)).
Proof.
  intros Hne Hl Hr Hc. unfold Py.contains in Hc.
  destruct (Py.find fence code) eqn:Fc; [done|].
  assert (Py.strip code = code) as Hs by (unfold Py.strip; by rewrite Hl, Hr).
  split.
  - assert (Py.find fence_python code = None) as Fp.
    { destruct (Py.find fence_python code) as [j|] eqn:Fj; [|done].
      apply PyFacts.find_occurs in Fj. rewrite fence_python_split in Fj.
      apply PyFacts.startswith_app_l in Fj.
      by rewrite (PyFacts.find_none_no_occurrence _ _ j Fc) in Fj. }
    rewrite (extract_code_unfenced _ Fp), Hs. by destruct code.
  - intros pre post Hp H1 H2.
    rewrite (extract_code_fenced_eq _ _ Hp).
    change 9 with (String.length fence_python).
    rewrite PyFacts.drop_app_length, PyFacts.drop_app_exact.
    set (inner := Py.nl +:+ code +:+ Py.nl).
    assert (Py.nl +:+ code +:+ Py.nl +:+ fence +:+ post
            = inner +:+ fence +:+ post) as ->.
    { unfold inner. by rewrite !PyFacts.app_assoc. }
    assert (Py.find fence (inner +:+ fence +:+ post)
            = Some (String.length inner)) as Hi.
    { unfold inner.
      assert ((Py.nl +:+ code +:+ Py.nl) +:+ fence +:+ post
              = (Py.nl +:+ code) +:+ String "010"%char (fence +:+ post)) as ->.
      { unfold Py.nl. by rewrite !PyFacts.app_assoc, !PyFacts.app_cons,
          !PyFacts.app_nil_l. }
      rewrite find_fence_after; [| |done].
      - f_equal. unfold Py.nl.
        rewrite !PyFacts.app_cons, !PyFacts.app_nil_l. simpl.
        rewrite PyFacts.length_app. simpl. lia.
      - unfold Py.nl. rewrite PyFacts.app_cons, PyFacts.app_nil_l.
        rewrite PyFacts.find_cons. unfold fence at 1.
        rewrite PyFacts.startswith_cons. simpl Ascii.eqb. cbv iota.
        by rewrite Fc. }
    rewrite (before_fence_inner inner post Hi H1 H2).
    do 2 f_equal. unfold inner, Py.nl.
    rewrite PyFacts.app_cons, PyFacts.app_nil_l.
    unfold Py.strip. destruct code as [|c code]; [done|].
    pose proof (lstrip_fixed_head c code Hl) as Hc0.
    rewrite PyFacts.app_cons.
    assert (Py.lstrip (String "010"%char (String c (code +:+ String "010"%char "")))
            = String c code +:+ String "010"%char "") as ->.
    { change (Py.lstrip (String "010"%char ?x)) with (Py.lstrip x).
      simpl. by rewrite Hc0. }
    by rewrite rstrip_app_space.
Qed.

Lemma extract_code_of_clean_code_witness :
  _extract_code "x = 1" = Ok (Some "x = 1") /\
  _extract_code sample_reply = Ok (Some "x = 1").
Proof.
  destruct (extract_code_of_clean_code "x = 1") as [Hbare Hblock];
    [discriminate | reflexivity | reflexivity | reflexivity |].
  split; [exact Hbare|].
  apply (Hblock ("Here:" +:+ Py.nl) (Py.nl +:+ "Done.")); reflexivity.
Defined.

(** * Beyond the claims: whole runs *)

Section MoreRuns.

Variable env : Env.
Variable api_key : string.

(** The two ways [_generate_code_node] returns: with code written, or
    with a failure text and nothing written. *)
Lemma generate_cases (st st' : AgentState) (w w' : World) :
  _generate_code_node env api_key st w = (w', Ok st') ->
  (exists code,
     code <> "" /\ st' = set_current_code (Some code) st /\
     w' = {| files := <[parser_path st := code]> (files w);
             trace := EvWrite (parser_path st) code
                      :: EvMakedirs (Py.dirname (parser_path st))
                      :: EvPrompt (prompt_text st)
                      :: EvReadCsv (csv_path st) :: trace w |}) \/
  (exists fb,
     generation_failure_text (Some fb) /\
     st' = set_test_results (Some fb) (set_current_code None st) /\
     w' = after [EvPrompt (prompt_text st); EvReadCsv (csv_path st)] w).
Proof.
  unfold _generate_code_node, generation_failure_text. unfold_m. simpl.
  destruct (read_csv_columns _ _ _ _) as [cols|e]; [|done].
  destruct (generate_content _ _ _ _) as [text|e];
    [|intros [= <- <-]; right; eexists; eauto].
  destruct (_extract_code text) as [[[|c code]|]|e]; simpl;
    intros [= <- <-].
  - right. eexists. eauto.
  - left. exists (String c code). split_and!; done.
  - right. eexists. eauto.
  - right. eexists. eauto.
Qed.

(** One graph step, node by node: where it goes, the state and the world
    it leaves. *)
Lemma graph_step_cases (n n' : Node) (st st' : AgentState) (w w' : World) :
  graph_step env api_key n st w = (w', Ok (n', st')) ->
  match n with
  | plan =>
      n' = generate_code /\ w' = after [EvNode plan] w /\
      st' = set_messages
              (messages st ++
               [("user", "Plan a Python parser for " +:+ target_bank st +:+ ".")])
              st
  | generate_code =>
      (exists code,
         n' = run_tests /\
         code <> "" /\ st' = set_current_code (Some code) st /\
         w' = {| files := <[parser_path st := code]> (files w);
                 trace := EvWrite (parser_path st) code
                          :: EvMakedirs (Py.dirname (parser_path st))
                          :: EvPrompt (prompt_text st)
                          :: EvReadCsv (csv_path st)
                          :: EvNode generate_code :: trace w |}) \/
      (exists fb,
         n' = END /\
         generation_failure_text (Some fb) /\
         st' = set_test_results (Some fb) (set_current_code None st) /\
         w' = after [EvPrompt (prompt_text st); EvReadCsv (csv_path st);
                     EvNode generate_code] w)
  | run_tests =>
      w' = after [EvSubprocess (pytest_cmd env) 60; EvNode run_tests] w /\
      st' = tested st (test_outcome env (after [EvNode run_tests] w)) /\
      (task_complete st' = true /\ n' = END /\
       test_results st' = Some msg_tests_passed \/
       task_complete st' = false /\ test_failure_text (test_results st') /\
       ((attempt_count st < max_attempts st)%Z /\ n' = self_fix \/
        (max_attempts st <= attempt_count st)%Z /\ n' = END))
  | self_fix =>
      n' = generate_code /\ w' = after [EvNode self_fix] w /\
      st' = set_attempt_count (attempt_count st + 1)%Z st
  | END => False
  end.
Proof.
  destruct n; unfold graph_step, node_action, edge.
  - unfold _plan_node. unfold_m. simpl. by intros [= <- <- <-].
  - unfold_m. simpl.
    destruct (_generate_code_node _ _ _ _) as [w1 [st1|e]] eqn:G; [|done].
    apply generate_cases in G as [(code & Hc & -> & ->) | (fb & Hf & -> & ->)].
    + unfold _should_test. simpl.
      destruct code as [|c code]; [done|]. simpl.
      intros [= <- <- <-]. left. exists (String c code). split_and!; done.
    + unfold _should_test. simpl.
      intros [= <- <- <-]. right. exists fb. split_and!; done.
  - unfold_m. simpl. rewrite run_tests_outcome.
    change {| files := files w; trace := EvNode run_tests :: trace w |}
      with (after [EvNode run_tests] w).
    set (r := test_outcome env (after [EvNode run_tests] w)).
    destruct (tested_counters st r) as [Ha Hm].
    unfold _should_continue_fixing. rewrite Ha, Hm.
    assert (task_complete (tested st r) = true /\
            test_results (tested st r) = Some msg_tests_passed \/
            task_complete (tested st r) = false /\
            test_failure_text (test_results (tested st r))) as Ht.
    { unfold tested, test_failure_text.
      destruct r as [cp|e]; [destruct (returncode cp =? 0)%Z|]; simpl; eauto 10. }
    destruct Ht as [[Ht Hp] | [Ht Hf]]; rewrite Ht; simpl.
    + intros [= <- <- <-]. split_and!; [done | done |]. left. done.
    + destruct (attempt_count st <? max_attempts st)%Z eqn:L; simpl;
        intros [= <- <- <-]; (split_and!; [done | done |]); right;
        (split_and!; [done | done |]).
      * apply Z.ltb_lt in L. by left.
      * apply Z.ltb_ge in L. by right.
  - unfold _self_fix_node. unfold_m. simpl. by intros [= <- <- <-].
  - unfold_m. simpl. done.
Qed.

End MoreRuns.

Section RunInvariant.

Variable env : Env.
Variable api_key : string.

Ltac count_events :=
  unfold since, after in *; simpl in *; try lia.

Lemma run_invariant_holds (target : string) (limit : Z) (w0 : World)
    (c : config) :
  reachable env api_key target limit w0 c ->
  run_invariant env target limit w0 c.
Proof.
  unfold reachable. revert c. apply rtc_ind_r.
  - unfold run_invariant, start, cfg_node, cfg_state, cfg_world. simpl.
    split_and!; try done; count_events.
  - intros [[n st] w] [[n' st'] w'] _ [Hn Hstep] IH.
    unfold run_invariant, cfg_node, cfg_state, cfg_world in *. simpl in *.
    destruct IH as ((Ht & Hp & Hcsv & Hm) & Hframe & Hart & Hdone & Hnode).
    assert (task_complete st = false) as Hfalse.
    { destruct (task_complete st); [by destruct (Hdone eq_refl) | done]. }
    apply graph_step_cases in Hstep.
    destruct n; try done.
    + destruct Hstep as (-> & -> & ->). simpl.
      destruct Hnode as (Ha & Hr & Hc & Hg & Hf & Hs).
      split_and!; try done; try congruence; auto; count_events.
    + destruct Hnode as (Hfb & Hg & Hf & Hs).
      assert (1 <= attempt_count st)%Z as H1
        by (destruct Hfb as [[-> _] | [? _]]; lia).
      destruct Hstep as [(code & -> & Hc & -> & ->) | (fb & -> & Hfail & -> & ->)];
        simpl.
      * split_and!; try done; try congruence.
        all: try (intros p Hne; rewrite lookup_insert_ne by congruence;
                  by apply Hframe).
        all: try (intros _; rewrite Hp; by rewrite lookup_insert_eq).
        all: try (by destruct code).
        all: count_events.
      * split_and!; try done; try congruence.
        all: try (left; split_and!; try done).
        all: count_events.
    + destruct Hnode as (H1 & Hc & Hg & Hf & Hs).
      destruct Hstep as (-> & -> & Hroute).
      set (r := test_outcome env (after [EvNode run_tests] w)) in *.
      destruct (tested_counters st r) as [Ha Hmx].
      assert (current_code (tested st r) = current_code st /\
              target_bank (tested st r) = target_bank st /\
              parser_path (tested st r) = parser_path st /\
              csv_path (tested st r) = csv_path st) as (Hcc & Htb & Hpp & Hcp).
      { unfold tested. destruct r as [cp|e];
          [destruct (returncode cp =? 0)%Z|]; done. }
      rewrite Ha, Hmx, Hcc, Htb, Hpp, Hcp in *.
      destruct Hroute as [(Htc & -> & Hpass) | (Htc & Hfail & [(Hlt & ->) | (Hge & ->)])];
        rewrite ?Htc; split_and!; try done; try lia.
      all: try (right; split_and!; try done; try (by left);
                try (right; split_and!; try done; lia)).
      all: count_events.
    + destruct Hnode as (Hlt & Hfail & Hc & Hg & Hf & Hs).
      destruct Hstep as (-> & -> & ->). simpl.
      split_and!; try done; try congruence; try lia.
      all: try (right; split; [lia | done]).
      all: count_events.
Qed.

End RunInvariant.

(** * Beyond the claims: what every run keeps *)

Lemma fail_2_reachable : reachable env_fail "key" "icici" 3 w_empty fail_2.
Proof.
  unfold reachable.
  apply (rtc_l _ _ fail_1); [split; [discriminate | vm_compute; reflexivity]|].
  apply (rtc_l _ _ fail_2); [split; [discriminate | vm_compute; reflexivity]|].
  apply rtc_refl.
Defined.

Lemma nocode_2_reachable : reachable env_empty "key" "icici" 3 w_empty nocode_2.
Proof.
  unfold reachable.
  apply (rtc_l _ _ nocode_1); [split; [discriminate | vm_compute; reflexivity]|].
  apply (rtc_l _ _ nocode_2); [split; [discriminate | vm_compute; reflexivity]|].
  apply rtc_refl.
Defined.

(** X5 — A run never changes what it works on: the target, the two paths
    and the limit of every configuration are those [run] started with. *)
Theorem run_keeps_identity (env : Env) (api_key target : string) (limit : Z)
    (w0 : World) (c : config) :
  reachable env api_key target limit w0 c ->
  target_bank (cfg_state c) = target /\
  parser_path (cfg_state c) = parser_path (initial_state env target limit) /\
  csv_path (cfg_state c) = csv_path (initial_state env target limit) /\
  max_attempts (cfg_state c) = limit.
Proof. intros H. by destruct (run_invariant_holds _ _ _ _ _ _ H) as [? _]. Qed.

Lemma run_keeps_identity_witness :
  target_bank (cfg_state fail_4) = "icici" /\
  parser_path (cfg_state fail_4)
  = parser_path (initial_state env_fail "icici" 3) /\
  csv_path (cfg_state fail_4) = csv_path (initial_state env_fail "icici" 3) /\
  max_attempts (cfg_state fail_4) = 3%Z.
Proof.
  apply (run_keeps_identity env_fail "key" "icici" 3 w_empty fail_4).
  exact fail_4_reachable.
Defined.

(** X7 — The write of a cycle comes before its test run: whenever a run
    is at [run_tests], the state holds non-empty code and the file at the
    state's parser path holds exactly that code. *)
Theorem code_on_disk_before_tests (env : Env) (api_key target : string)
    (limit : Z) (w0 : World) (c : config) :
  reachable env api_key target limit w0 c ->
  cfg_node c = run_tests ->
  exists code : string,
    code <> "" /\
    current_code (cfg_state c) = Some code /\
    files (cfg_world c) !! parser_path (cfg_state c) = Some code.
Proof.
  intros H Hn.
  destruct (run_invariant_holds _ _ _ _ _ _ H)
    as ((_ & Hp & _) & _ & Hart & _ & Hnode).
  rewrite Hn in Hnode. destruct Hnode as (_ & Hc & _).
  specialize (Hart Hc). rewrite Hp.
  destruct (current_code (cfg_state c)) as [[|a code]|]; try done.
  by exists (String a code).
Qed.

Lemma code_on_disk_before_tests_witness :
  exists code : string,
    code <> "" /\
    current_code (cfg_state fail_2) = Some code /\
    files (cfg_world fail_2) !! parser_path (cfg_state fail_2) = Some code.
Proof.
  apply (code_on_disk_before_tests env_fail "key" "icici" 3 w_empty fail_2);
    [exact fail_2_reachable | reflexivity].
Defined.



(** X9 — A run ends without success for one of two reasons only: the
    last generation gave no code, and then the state holds no code and the
    feedback is the generation failure; or the tests failed with the
    attempt counter at the limit or beyond, and then the feedback is that
    test failure. *)
Theorem failure_reasons (env : Env) (api_key target : string) (limit : Z)
    (w0 : World) (c : config) :
  reachable env api_key target limit w0 c ->
  cfg_node c = END ->
  task_complete (cfg_state c) = false ->
  current_code (cfg_state c) = None /\
  generation_failure_text (test_results (cfg_state c))
  \/
  Py.truthy_opt (current_code (cfg_state c)) = true /\
  (limit <= attempt_count (cfg_state c))%Z /\
  test_failure_text (test_results (cfg_state c)).
Proof.
  intros H Hn Ht.
  destruct (run_invariant_holds _ _ _ _ _ _ H) as (_ & _ & _ & _ & Hnode).
  rewrite Hn in Hnode.
  destruct Hnode as (_ & _ & [(Hnone & _ & Hf & _) | (Hc & _ & _ & Hres)]).
  - by left.
  - right. destruct Hres as [Htrue | (_ & Hl & Hf)]; [congruence | done].
Qed.

Lemma failure_reasons_witness :
  current_code (cfg_state nocode_2) = None /\
  generation_failure_text (test_results (cfg_state nocode_2))
  \/
  Py.truthy_opt (current_code (cfg_state nocode_2)) = true /\
  (3 <= attempt_count (cfg_state nocode_2))%Z /\
  test_failure_text (test_results (cfg_state nocode_2)).
Proof.
  apply (failure_reasons env_empty "key" "icici" 3 w_empty nocode_2);
    [exact nocode_2_reachable | reflexivity | reflexivity].
Defined.

(** Where the feedback of a retry comes from: at [self_fix], and at the
    [generate_code] after it, the history ends with the test run just
    made, and the feedback is the failure text of that run's outcome. *)
Lemma retry_feedback_inv (env : Env) (api_key target : string) (limit : Z)
    (w0 : World) (c : config) :
  reachable env api_key target limit w0 c ->
  match cfg_node c with
  | self_fix =>
      exists tr',
        trace (cfg_world c)
        = EvSubprocess (pytest_cmd env) 60 :: EvNode run_tests :: tr' /\
        feedback_of_failed_run env tr' (files (cfg_world c))
          (test_results (cfg_state c))
  | generate_code =>
      attempt_count (cfg_state c) = 1%Z /\ test_results (cfg_state c) = None \/
      (1 < attempt_count (cfg_state c))%Z /\
      exists tr',
        trace (cfg_world c)
        = EvNode self_fix :: EvSubprocess (pytest_cmd env) 60
          :: EvNode run_tests :: tr' /\
        feedback_of_failed_run env tr' (files (cfg_world c))
          (test_results (cfg_state c))
  | _ => True
  end.
Proof.
  unfold reachable. revert c. apply rtc_ind_r; [done|].
  intros c c' Hc [Hn Hstep] IH.
  destruct (run_invariant_holds _ _ _ _ _ _ Hc) as (_ & _ & _ & _ & Hnode).
  destruct c as [[n st] w], c' as [[n' st'] w'].
  unfold cfg_node, cfg_state, cfg_world in *. simpl in Hn, Hstep, IH, Hnode.
  simpl. apply graph_step_cases in Hstep.
  destruct n; try done.
  - destruct Hstep as (-> & -> & ->). simpl.
    destruct Hnode as (Ha & Hr & _). by left.
  - destruct Hstep as [(code & -> & _) | (fb & -> & _)]; done.
  - destruct Hstep as (-> & -> & [(_ & -> & _) | (Htc & _ & [(_ & ->) | (_ & ->)])]);
      try done.
    exists (trace w). split; [done|].
    unfold feedback_of_failed_run. simpl files.
    revert Htc. unfold test_outcome, after, tested. simpl.
    destruct (subprocess_run _ _ _ _ _ _) as [cp|e]; [|done].
    destruct (returncode cp =? 0)%Z eqn:E; [done|].
    intros _. split; [by apply Z.eqb_neq | done].
  - destruct Hstep as (-> & -> & ->). simpl.
    destruct Hnode as ([H1 _] & _). destruct IH as (tr' & Htr & Hfb).
    right. split; [lia|]. exists tr'. by rewrite Htr.
Qed.

(** X10 — The feedback a generation cycle starts from, and sends.  In the
    first cycle there is none, and the prompt carries the text [None]
    (never the fallback text of [state.get]).  In every later cycle the
    history shows the test run just made, and the feedback is the failure
    text of that very run: its two outputs under their headings for a
    non-zero exit code, the text of its exception otherwise.  The prompt
    the cycle then sends is the fixed text for the run's target with that
    feedback after its heading. *)
Theorem feedback_entering_generation (env : Env) (api_key target : string)
    (limit : Z) (w0 : World) (c : config) :
  reachable env api_key target limit w0 c ->
  cfg_node c = generate_code ->
  let nl := String "010"%char "" in
  let ind := "        " in
  exists feedback : string,
    (attempt_count (cfg_state c) = 1%Z /\
     test_results (cfg_state c) = None /\ feedback = "None"
     \/
     (1 < attempt_count (cfg_state c))%Z /\
     test_results (cfg_state c) = Some feedback /\
     exists tr' : list event,
       trace (cfg_world c)
       = EvNode self_fix
         :: EvSubprocess [sys_executable env; "-m"; "pytest"; "test_parser.py"] 60
         :: EvNode run_tests :: tr' /\
       match subprocess_run env (EvNode run_tests :: tr') (files (cfg_world c))
               [sys_executable env; "-m"; "pytest"; "test_parser.py"]
               (cwd env) 60 with
       | Ok cp =>
           returncode cp <> 0%Z /\
           feedback = "Tests failed." +:+ nl +:+ "STDOUT:" +:+ nl +:+
                      stdout cp +:+ nl +:+ "STDERR:" +:+ nl +:+ stderr cp
       | Raise e =>
           feedback = "An unexpected error occurred while running tests: "
                      +:+ str_exn e
       end) /\
    (forall c' : config,
       step_to env api_key c c' ->
       prompts_sent (trace (cfg_world c'))
       = (nl +:+
          ind +:+ "You are an expert Python developer. Generate a parser for '"
              +:+ target +:+ "' bank statements." +:+ nl +:+
          nl +:+
          ind +:+ "**CRITICAL INSTRUCTIONS:**" +:+ nl +:+
          ind +:+ "1.  The PDF data has exactly 5 columns. Your parser must extract and handle exactly 5 columns." +:+ nl +:+
          ind +:+ "2.  The required output DataFrame columns are STRICTLY: `['Date', 'Description', 'Debit Amt', 'Credit Amt', 'Balance']`." +:+ nl +:+
          ind +:+ "3.  **DO NOT HALLUCINATE OR ADD EXTRA COLUMNS.** Specifically, do not add a 'Chq./Ref.No.' column. This is the most common cause of failure." +:+ nl +:+
          ind +:+ "4.  Use `pdfplumber` and `page.extract_tables()`." +:+ nl +:+
          ind +:+ "5.  Create the DataFrame from a list of dictionaries to ensure column mapping is correct." +:+ nl +:+
          nl +:+
          ind +:+ "**Feedback from previous attempt:** " +:+ feedback
              +:+ nl +:+
          nl +:+
          ind +:+ "Provide only the complete, runnable Python code." +:+ nl +:+
          ind)
         :: prompts_sent (trace (cfg_world c))).
Proof.
  intros H Hn nl ind.
  pose proof (retry_feedback_inv _ _ _ _ _ _ H) as Hinv.
  rewrite Hn in Hinv.
  exists (Py.fmt_opt (test_results (cfg_state c))). split.
  - destruct Hinv as [[Ha Hr] | (Ha & tr' & Htr & Hfb)].
    + left. by rewrite Hr.
    + right. split; [done|].
      unfold feedback_of_failed_run, pytest_cmd in Hfb.
      destruct (subprocess_run _ _ _ _ _ _) as [cp|e] eqn:E.
      * destruct Hfb as [Hrc Hfb]. rewrite Hfb. split; [done|].
        exists tr'. split; [done|]. rewrite E. done.
      * rewrite Hfb. split; [done|].
        exists tr'. split; [done|]. rewrite E. done.
  - intros c' [_ Hstep].
    destruct (run_invariant_holds _ _ _ _ _ _ H) as ((Ht & _) & _).
    destruct c as [[n st] w], c' as [[n' st'] w'].
    unfold cfg_node, cfg_state, cfg_world in *. simpl in Hn, Hstep, Ht. simpl.
    subst n. apply graph_step_cases in Hstep. rewrite <- Ht.
    change (prompts_sent (trace w')
            = prompt_text st :: prompts_sent (trace w)).
    destruct Hstep as [(code & _ & _ & _ & ->) | (fb & _ & _ & _ & ->)]; done.
Qed.

Lemma feedback_entering_generation_witness :
  exists feedback : string,
    (attempt_count (cfg_state fail_4) = 1%Z /\
     test_results (cfg_state fail_4) = None /\ feedback = "None"
     \/
     (1 < attempt_count (cfg_state fail_4))%Z /\
     test_results (cfg_state fail_4) = Some feedback /\
     exists tr' : list event,
       trace (cfg_world fail_4)
       = EvNode self_fix
         :: EvSubprocess
              [sys_executable env_fail; "-m"; "pytest"; "test_parser.py"] 60
         :: EvNode run_tests :: tr' /\
       match subprocess_run env_fail (EvNode run_tests :: tr')
               (files (cfg_world fail_4))
               [sys_executable env_fail; "-m"; "pytest"; "test_parser.py"]
               (cwd env_fail) 60 with
       | Ok cp =>
           returncode cp <> 0%Z /\
           feedback = "Tests failed." +:+ String "010"%char "" +:+ "STDOUT:"
                      +:+ String "010"%char "" +:+
                      stdout cp +:+ String "010"%char "" +:+ "STDERR:"
                      +:+ String "010"%char "" +:+ stderr cp
       | Raise e =>
           feedback = "An unexpected error occurred while running tests: "
                      +:+ str_exn e
       end) /\
    (forall c' : config,
       step_to env_fail "key" fail_4 c' ->
       prompts_sent (trace (cfg_world c'))
       = prompt_text (set_test_results (Some feedback) (cfg_state fail_4))
         :: prompts_sent (trace (cfg_world fail_4))).
Proof.
  apply (feedback_entering_generation env_fail "key" "icici" 3 w_empty fail_4);
    [exact fail_4_reachable | reflexivity].
Defined.

(** X11 — The attempt counter counts generation cycles.  In every
    configuration the run has spawned no more test processes than it has
    written the parser file, and written it no more often than it has run
    generation cycles; once a cycle's generation is behind, the number of
    cycles run equals the attempt counter, so the count reported at the
    end is the number of generations. *)
Theorem attempt_counts_cycles (env : Env) (api_key target : string)
    (limit : Z) (w0 : World) (c : config) :
  reachable env api_key target limit w0 c ->
  (0 <= since is_subprocess w0 (cfg_world c)
     <= since is_file_write w0 (cfg_world c))%Z /\
  (since is_file_write w0 (cfg_world c)
     <= since is_generation w0 (cfg_world c))%Z /\
  (since is_generation w0 (cfg_world c) <= attempt_count (cfg_state c))%Z /\
  (cfg_node c = run_tests \/ cfg_node c = self_fix \/ cfg_node c = END ->
   since is_generation w0 (cfg_world c) = attempt_count (cfg_state c)).
Proof.
  intros H.
  destruct (run_invariant_holds _ _ _ _ _ _ H) as (_ & _ & _ & _ & Hnode).
  destruct (cfg_node c).
  - destruct Hnode as (Ha & _ & _ & Hg & Hf & Hs).
    split_and!; try lia. all: try (intros [|[|]]; done).
  - destruct Hnode as (Hfb & Hg & Hf & Hs).
    assert (1 <= attempt_count (cfg_state c))%Z
      by (destruct Hfb as [[-> _] | [? _]]; lia).
    split_and!; try lia. all: try (intros [|[|]]; done).
  - destruct Hnode as (H1 & _ & Hg & Hf & Hs). split_and!; lia.
  - destruct Hnode as (H1 & _ & _ & Hg & Hf & Hs). split_and!; lia.
  - destruct Hnode as (H1 & Hg & [(_ & _ & _ & Hf & Hs) | (_ & Hf & Hs & _)]);
      split_and!; lia.
Qed.

Lemma attempt_counts_cycles_witness :
  (0 <= since is_subprocess w_empty (cfg_world pass_3)
     <= since is_file_write w_empty (cfg_world pass_3))%Z /\
  (since is_file_write w_empty (cfg_world pass_3)
     <= since is_generation w_empty (cfg_world pass_3))%Z /\
  (since is_generation w_empty (cfg_world pass_3)
     <= attempt_count (cfg_state pass_3))%Z /\
  (cfg_node pass_3 = run_tests \/ cfg_node pass_3 = self_fix \/
   cfg_node pass_3 = END ->
   since is_generation w_empty (cfg_world pass_3)
   = attempt_count (cfg_state pass_3)).
Proof.
  apply (attempt_counts_cycles env_pass "key" "icici" 3 w_empty pass_3).
  exact pass_3_reachable.
Defined.

(** * Beyond the claims: how runs end *)

(** X12 — Termination needs no condition on the limit: with a limit of 0
    or less a run still makes its first attempt and then stops.  A budget
    of three graph steps per attempt allowed, and of three at least, is
    never used up, and the run goes through at most [max 1 limit]
    generation cycles. *)
Theorem run_terminates_any_limit (env : Env) (api_key target : string)
    (limit : Z) (w : World) (budget : nat) :
  3 * Z.to_nat (Z.max 1 limit) <= budget ->
  exists w' r,
    run env api_key budget target (Some limit) w = (w', r) /\
    r <> Ok None /\
    generation_cycles w' <= generation_cycles w + Z.to_nat (Z.max 1 limit).
Proof.
  intros Hb. unfold run, invoke. simpl default.
  destruct (invoke_from_bounded env api_key budget plan
              (initial_state env target limit) w) as (w' & r & Hr & Hn & Hc).
  { unfold steps_ahead, remaining. simpl. lia. }
  exists w', r. split_and!; [done | done |].
  unfold cycles_ahead, remaining in Hc. simpl in Hc. lia.
Qed.

Lemma run_terminates_any_limit_witness :
  exists w' r,
    run env_fail "key" 3 "icici" (Some 0%Z) w_empty = (w', r) /\
    r <> Ok None /\
    generation_cycles w' <= generation_cycles w_empty + Z.to_nat (Z.max 1 0).
Proof. apply run_terminates_any_limit. simpl. lia. Defined.

(** X13 — A reference file that cannot be read is fatal, in any cycle:
    the exception of the read, which is made outside the [try], ends the
    run at once; no prompt is sent, nothing is written, no test is run,
    and no feedback is recorded. *)
Theorem unreadable_reference_is_fatal (env : Env) (api_key : string)
    (st : AgentState) (w : World) (e : exn) (budget : nat) :
  read_csv_columns env (EvNode generate_code :: trace w) (files w)
    (csv_path st) = Raise e ->
  invoke_from env api_key (S budget) generate_code st w
  = (after [EvReadCsv (csv_path st); EvNode generate_code] w, Raise e).
Proof.
  intros H. rewrite invoke_from_step by done.
  unfold graph_step, node_action. unfold_m. simpl.
  rewrite (generate_read_fails env api_key st
             {| files := files w; trace := EvNode generate_code :: trace w |}
             e H).
  done.
Qed.

Lemma unreadable_reference_is_fatal_witness :
  invoke_from env_unreadable "key" 1 generate_code (cfg_state pass_1) w_empty
  = (after [EvReadCsv (csv_path (cfg_state pass_1)); EvNode generate_code]
       w_empty,
     Raise (Exn OSError "No such file or directory")).
Proof. apply unreadable_reference_is_fatal. reflexivity. Defined.



(** * Beyond the claims: the agent and the test suite *)

Lemma app_inj_length (s s' t t' : string) :
  String.length s = String.length s' ->
  s +:+ t = s' +:+ t' -> s = s' /\ t = t'.
Proof.
  revert s'; induction s as [|a s IH]; intros [|b s'] Hl; try done.
  rewrite !PyFacts.app_cons. simpl in Hl. intros [= -> H].
  destruct (IH s' ltac:(lia) H) as [-> ->]. done.
Qed.

(** Every file write a run adds to the history goes to the parser path of
    its initial state. *)
Lemma run_writes_parser_path (env : Env) (api_key target : string)
    (limit : Z) (w0 : World) (c : config) :
  reachable env api_key target limit w0 c ->
  forall (path code : string),
    In (EvWrite path code) (trace (cfg_world c)) ->
    In (EvWrite path code) (trace w0) \/
    path = parser_path (initial_state env target limit).
Proof.
  unfold reachable. revert c.
  apply (rtc_ind_r (fun c : config =>
           forall path code : string,
             In (EvWrite path code) (trace (cfg_world c)) ->
             In (EvWrite path code) (trace w0) \/
             path = parser_path (initial_state env target limit))).
  - intros path code Hin. by left.
  - intros c c' Hc [Hn Hstep] IH path code.
    destruct (run_invariant_holds _ _ _ _ _ _ Hc) as ((_ & Hp & _) & _).
    destruct c as [[n st] w], c' as [[n' st'] w'].
    unfold cfg_node, cfg_state, cfg_world in *. simpl in Hn, Hstep, IH, Hp.
    simpl. apply graph_step_cases in Hstep.
    destruct n; try done.
    + destruct Hstep as (_ & -> & _). simpl.
      intros [?|Hin]; [done | by apply IH].
    + destruct Hstep as [(c0 & _ & _ & _ & ->) | (fb & _ & _ & _ & ->)]; simpl.
      * intros [[= <- <-]|[?|[?|[?|[?|Hin]]]]]; try done;
          [by right | by apply IH].
      * intros [?|[?|[?|Hin]]]; try done. by apply IH.
    + destruct Hstep as (-> & _). simpl.
      intros [?|[?|Hin]]; try done. by apply IH.
    + destruct Hstep as (_ & -> & _). simpl.
      intros [?|Hin]; [done | by apply IH].
Qed.

(** X16 — The test suite looks at the files of the bank [icici], whatever
    the target of the run.  For a target that is one plain path component
    (no slash, not empty, not a single dot), the parser file the agent
    writes and the reference file it reads are the ones the test suite
    loads exactly when the target is [icici]; for any other such target
    no write of the run goes to the parser file the test suite loads. *)
Theorem test_suite_loads_agent_output (env : Env) (api_key target : string)
    (limit : Z) :
  plain_component target = true ->
  (parser_path (initial_state env target limit) = test_parser_path (cwd env)
   <-> target = bank_name) /\
  (csv_path (initial_state env target limit) = test_csv_path (cwd env)
   <-> target = bank_name) /\
  (target <> bank_name ->
   forall (w0 : World) (c : config),
     reachable env api_key target limit w0 c ->
     forall (path code : string),
       In (EvWrite path code) (trace (cfg_world c)) ->
       In (EvWrite path code) (trace w0) \/
       path <> test_parser_path (cwd env)).
Proof.
  intros _.
  assert (parser_path (initial_state env target limit) = test_parser_path (cwd env)
          <-> target = bank_name) as Hparser.
  { unfold initial_state, test_parser_path, bank_name. simpl. split.
    - intros H. apply (inj (String.app _)) in H.
      change ("/custom_parsers/" +:+ target +:+ "_parser.py"
              = "/custom_parsers/" +:+ "icici" +:+ "_parser.py") in H.
      apply (inj (String.app _)) in H.
      assert (String.length (target +:+ "_parser.py")
              = String.length ("icici" +:+ "_parser.py")) as Hl by by rewrite H.
      rewrite !PyFacts.length_app in Hl.
      apply (app_inj_length target "icici") in H; [by destruct H | lia].
    - by intros ->. }
  split_and!; [done | |].
  - unfold initial_state, test_csv_path, bank_name. simpl. split.
    + intros H. apply (inj (String.app _)) in H.
      change ("/data/" +:+ target +:+ "/" +:+ target +:+ "_sample.csv"
              = "/data/" +:+ "icici" +:+ "/" +:+ "icici" +:+ "_sample.csv") in H.
      apply (inj (String.app _)) in H.
      assert (String.length (target +:+ "/" +:+ target +:+ "_sample.csv")
              = String.length ("icici" +:+ "/" +:+ "icici" +:+ "_sample.csv"))
        as Hl by by rewrite H.
      rewrite !PyFacts.length_app in Hl.
      apply (app_inj_length target "icici") in H; [by destruct H|].
      change (String.length "/") with 1 in Hl.
      change (String.length "_sample.csv") with 11 in Hl.
      change (String.length "icici") with 5 in Hl |- *. lia.
    + by intros ->.
  - intros Hne w0 c H path code Hin.
    destruct (run_writes_parser_path _ _ _ _ _ _ H path code Hin) as [?| ->];
      [by left | right].
    intros Heq. by apply Hne, Hparser.
Qed.

Lemma test_suite_loads_agent_output_witness :
  (parser_path (initial_state env_pass "sbi" 3) = test_parser_path (cwd env_pass)
   <-> "sbi" = bank_name) /\
  (csv_path (initial_state env_pass "sbi" 3) = test_csv_path (cwd env_pass)
   <-> "sbi" = bank_name) /\
  ("sbi" <> bank_name ->
   forall (w0 : World) (c : config),
     reachable env_pass "key" "sbi" 3 w0 c ->
     forall (path code : string),
       In (EvWrite path code) (trace (cfg_world c)) ->
       In (EvWrite path code) (trace w0) \/
       path <> test_parser_path (cwd env_pass)).
Proof.
  apply (test_suite_loads_agent_output env_pass "key" "sbi" 3). reflexivity.
Defined.

(** * Beyond the claims: what a run does to the outside *)

Lemma prompt_text_of_target (env : Env) (st : AgentState) (target : string)
    (limit : Z) :
  target_bank st = target ->
  prompt_text st
  = prompt_text (set_test_results (test_results st)
                   (initial_state env target limit)).
Proof. intros <-. reflexivity. Qed.

(** X17 — Everything a run adds to the history is one of its own few
    actions: a read of its reference file, a prompt built for its target,
    the creation of the parser directory, a write of non-empty code to its
    parser file, or the test command [python -m pytest test_parser.py]
    with a timeout of 60, which does not depend on the target. *)
Theorem run_history_shape (env : Env) (api_key target : string) (limit : Z)
    (w0 : World) (c : config) :
  reachable env api_key target limit w0 c ->
  exists evs : list event,
    trace (cfg_world c) = (evs ++ trace w0)%list /\
    Forall (run_event_ok env target limit) evs.
Proof.
  unfold reachable. revert c. apply rtc_ind_r.
  - exists []. split; [done | constructor].
  - intros c c' Hc [Hn Hstep] (evs & Htr & Hok).
    destruct (run_invariant_holds _ _ _ _ _ _ Hc) as ((Ht & Hp & Hcsv & _) & _).
    destruct c as [[n st] w], c' as [[n' st'] w'].
    unfold cfg_node, cfg_state, cfg_world in *. simpl in Hn, Hstep, Htr.
    simpl in Ht, Hp, Hcsv. simpl.
    apply graph_step_cases in Hstep.
    destruct n; try done.
    + destruct Hstep as (_ & -> & _). simpl. rewrite Htr.
      exists (EvNode plan :: evs). split; [done|].
      constructor; [done | done].
    + pose proof (prompt_text_of_target env st target limit Ht) as Hprompt.
      destruct Hstep as [(code & _ & Hcode & _ & ->) | (fb & _ & _ & _ & ->)];
        simpl; rewrite Htr.
      * eexists (_ :: _ :: _ :: _ :: _ :: evs). split; [done|].
        repeat (apply Forall_cons; split;
                [unfold run_event_ok; simpl; rewrite ?Hp; eauto; done|]).
        done.
      * eexists (_ :: _ :: _ :: evs). split; [done|].
        repeat (apply Forall_cons; split;
                [unfold run_event_ok; simpl; rewrite ?Hp; eauto; done|]).
        done.
    + destruct Hstep as (-> & _). simpl. rewrite Htr.
      eexists (_ :: _ :: evs). split; [done|].
      repeat (apply Forall_cons; split;
              [unfold run_event_ok; simpl; eauto; done|]).
      done.
    + destruct Hstep as (_ & -> & _). simpl. rewrite Htr.
      exists (EvNode self_fix :: evs). split; [done|].
      constructor; [done | done].
Qed.

Lemma run_history_shape_witness :
  exists evs : list event,
    trace (cfg_world fail_4) = (evs ++ trace w_empty)%list /\
    Forall (run_event_ok env_fail "icici" 3) evs.
Proof.
  apply (run_history_shape env_fail "key" "icici" 3 w_empty fail_4).
  exact fail_4_reachable.
Defined.
